(** * Kelp: order primitives and the volume submit filter

    Shallow embedding of two Go files of the kelp trading bot:

    - package [orderbook] ([OrderAction], [OrderType] and their string
      conversions);
    - [plugins/volumeFilter.go] ([volumeFilterFn] and [volumeFilter.Apply]).

    Go [float64] values are handled through the interface [Number], which
    has two instances: IEEE-754 binary64 (the standard library's
    [SpecFloat], the arithmetic the program really runs on) and exact
    rationals [Q] (used where a property is about the arithmetic "up to
    rounding").  Pointers to [txnbuild.ManageSellOffer] are locations in a
    finite map, so that in-place updates of an operation are visible to
    every holder of the pointer.  Calls to [log.Printf] change nothing the
    filter reads and are left out.

    Two functions the filter calls live in files that are not at hand:
    [utils.IsSelling], taken as a parameter, and [filterOps], modelled from
    the specification. *)

From Stdlib Require Import ZArith QArith Lqa Bool List Ascii String.
From Stdlib Require Import Floats.SpecFloat.
From stdpp Require Import base option list strings gmap.

Local Open Scope string_scope.
Local Open Scope Z_scope.

(* ===================================================================== *)
(** * 1. Package orderbook: [OrderAction] and [OrderType]                 *)
(* ===================================================================== *)

(** Go: [m[k]] on a [map[string]V] yields the zero value of [V] when [k]
    is absent. *)
Definition go_index {V : Type} (zero : V) (m : gmap string V) (k : string) : V :=
  default zero (m !! k).

(** [type OrderAction bool] *)
Definition OrderAction : Type := bool.
Definition ActionBuy : OrderAction := false.
Definition ActionSell : OrderAction := true.

Definition OrderAction_IsBuy (a : OrderAction) : bool := Bool.eqb a ActionBuy.
Definition OrderAction_IsSell (a : OrderAction) : bool := Bool.eqb a ActionSell.

Definition OrderAction_String (a : OrderAction) : string :=
  if Bool.eqb a ActionBuy then "buy"
  else if Bool.eqb a ActionSell then "sell"
  else "error, unrecognized order action".

Definition orderActionMap : gmap string OrderAction :=
  <["buy" := ActionBuy]> (<["sell" := ActionSell]> ∅).

Definition OrderActionFromString (s : string) : OrderAction :=
  go_index false orderActionMap s.

(** [type OrderType int8]: an integer in [-128, 127]. *)
Definition OrderType : Type := Z.
Definition TypeMarket : OrderType := 0.
Definition TypeLimit : OrderType := 1.

Definition int8 (o : Z) : Prop := -128 <= o <= 127.

Definition OrderType_IsMarket (o : OrderType) : bool := o =? TypeMarket.
Definition OrderType_IsLimit (o : OrderType) : bool := o =? TypeLimit.

Definition OrderType_String (o : OrderType) : string :=
  if o =? TypeMarket then "market"
  else if o =? TypeLimit then "limit"
  else "error, unrecognized order type".

Definition orderTypeMap : gmap string OrderType :=
  <["market" := TypeMarket]> (<["limit" := TypeLimit]> ∅).

Definition OrderTypeFromString (s : string) : OrderType :=
  go_index 0 orderTypeMap s.

(** The strings the two parsers recognise, and the values of type
    [OrderType] that the package declares. *)
Definition recognizedAction (s : string) : Prop := s = "buy" \/ s = "sell".
Definition recognizedType (s : string) : Prop := s = "market" \/ s = "limit".
Definition validOrderType (o : OrderType) : Prop := o = TypeMarket \/ o = TypeLimit.

(* ===================================================================== *)
(** * 2. Numbers: what the filter needs from [float64]                    *)
(* ===================================================================== *)

(** The operations [volumeFilterFn] performs on [float64] values, with
    [strconv.ParseFloat(s, 64)] and [fmt.Sprintf("%.7f", x)]. *)
Class Number (num : Type) := {
  nzero : num;                         (* 0.0 *)
  nadd : num -> num -> num;            (* x + y *)
  nsub : num -> num -> num;            (* x - y *)
  nmul : num -> num -> num;            (* x * y *)
  ndiv : num -> num -> num;            (* x / y *)
  nleb : num -> num -> bool;           (* x <= y *)
  ngtb : num -> num -> bool;           (* x > y *)
  ParseFloat : string -> option num;   (* None: the error result *)
  Sprintf7 : num -> string
}.

(** ** Decimal text *)

Definition digit_of_ascii (c : ascii) : option N :=
  let n := N_of_ascii c in
  if ((48 <=? n) && (n <=? 57))%N then Some (n - 48)%N else None.

Definition ascii_of_digit (d : N) : ascii := ascii_of_N (48 + d mod 10)%N.

(** [read_digits acc s]: the longest prefix of decimal digits of [s], read
    into [acc]; returns the number, how many digits were read, and the rest. *)
Fixpoint read_digits (acc : N) (cnt : nat) (s : string) : N * nat * string :=
  match s with
  | String c rest =>
      match digit_of_ascii c with
      | Some d => read_digits (10 * acc + d)%N (S cnt) rest
      | None => (acc, cnt, s)
      end
  | EmptyString => (acc, cnt, s)
  end.

(** A decimal literal [[+-]digits[.digits]] with at least one digit, read
    as (negative?, n, k) standing for n / 10^k. *)
Definition read_decimal (s : string) : option (bool * N * nat) :=
  let '(neg, body) :=
    match s with
    | String "-"%char r => (true, r)
    | String "+"%char r => (false, r)
    | _ => (false, s)
    end in
  let '(ip, ni, rest) := read_digits 0%N 0%nat body in
  match rest with
  | EmptyString => if (0 <? ni)%nat then Some (neg, ip, 0%nat) else None
  | String "."%char frac =>
      let '(n, nf, rest') := read_digits ip 0%nat frac in
      match rest' with
      | EmptyString => if (0 <? ni + nf)%nat then Some (neg, n, nf) else None
      | _ => None
      end
  | _ => None
  end.

(** [width] decimal digits of [n], most significant first. *)
Fixpoint fixed_digits (width : nat) (n : N) : string :=
  match width with
  | O => EmptyString
  | S w => fixed_digits w (n / 10)%N ++ String (ascii_of_digit n) EmptyString
  end.

(** Digits of [n] without leading zeros ("0" for zero); [fuel] bounds the
    number of digits. *)
Fixpoint nat_digits (fuel : nat) (n : N) : string :=
  match fuel with
  | O => EmptyString
  | S f =>
      if (n <? 10)%N then String (ascii_of_digit n) EmptyString
      else nat_digits f (n / 10)%N ++ String (ascii_of_digit n) EmptyString
  end.

Definition decimal_of_N (n : N) : string := nat_digits (S (N.to_nat (N.log2 n))) n.

(** The text of [scaled / 10^7] with exactly 7 fractional digits, as "%.7f"
    prints a finite value whose rounding to 7 places is [scaled / 10^7]. *)
Definition fixed7 (neg : bool) (scaled : N) : string :=
  (if neg then "-" else EmptyString) ++
  decimal_of_N (scaled / 10000000)%N ++ "." ++ fixed_digits 7 (scaled mod 10000000)%N.

(** Nearest integer to [n / d] ([d > 0]), ties to even. *)
Definition round_half_even (n d : Z) : Z :=
  let q := n / d in
  let r := n mod d in
  match Z.compare (2 * r) d with
  | Lt => q
  | Gt => q + 1
  | Eq => if Z.even q then q else q + 1
  end.

Fixpoint pow10 (k : nat) : positive :=
  match k with
  | O => 1%positive
  | S k' => (10 * pow10 k')%positive
  end.

(** ** Instance 1: IEEE-754 binary64 *)

Definition float64 : Type := spec_float.

Definition prec64 : Z := 53.
Definition emax64 : Z := 1024.

(** The binary64 value nearest to [n / d] (ties to even), with sign [neg]. *)
Definition float64_of_ratio (neg : bool) (n d : positive) : float64 :=
  let e' := fexp prec64 emax64 (Z.pos (digits2_pos n) - Z.pos (digits2_pos d)) in
  let n' := if e' <? 0 then Z.shiftl (Z.pos n) (- e') else Z.pos n in
  let d' := if e' <? 0 then Z.pos d else Z.shiftl (Z.pos d) e' in
  let '(q, r) := Z.div_eucl n' d' in
  binary_round_aux prec64 emax64 neg q e' (new_location d' r).

(** [strconv.ParseFloat(s, 64)] on plain decimal literals.  Go also accepts
    exponents, hexadecimal floats, "inf" and "nan"; those spellings are not
    modelled and are reported as errors here.  A literal too large for a
    finite binary64 is a range error in Go. *)
Definition ParseFloat64 (s : string) : option float64 :=
  match read_decimal s with
  | None => None
  | Some (neg, N0, _) => Some (S754_zero neg)
  | Some (neg, Npos n, k) =>
      match float64_of_ratio neg n (pow10 k) with
      | S754_infinity _ => None
      | x => Some x
      end
  end.

(** [fmt.Sprintf("%.7f", x)]: the exact binary value rounded to 7 decimal
    places, ties to even. *)
Definition Sprintf7_64 (x : float64) : string :=
  match x with
  | S754_zero neg => fixed7 neg 0
  | S754_infinity neg => if neg then "-Inf" else "+Inf"
  | S754_nan => "NaN"
  | S754_finite neg m e =>
      let scaled :=
        if 0 <=? e then Z.pos m * 2 ^ e * 10000000
        else round_half_even (Z.pos m * 10000000) (2 ^ (- e)) in
      fixed7 neg (Z.to_N scaled)
  end.

#[export] Instance float64_Number : Number float64 := {|
  nzero := S754_zero false;
  nadd := SFadd prec64 emax64;
  nsub := SFsub prec64 emax64;
  nmul := SFmul prec64 emax64;
  ndiv := SFdiv prec64 emax64;
  nleb := SFleb;
  ngtb := fun x y => SFltb y x;
  ParseFloat := ParseFloat64;
  Sprintf7 := Sprintf7_64
|}.

(** ** Instance 2: exact rationals *)

Definition ParseFloatQ (s : string) : option Q :=
  match read_decimal s with
  | None => None
  | Some (neg, n, k) =>
      let q := Qmake (Z.of_N n) (pow10 k) in
      Some (if neg then Qopp q else q)
  end.

Definition Sprintf7_Q (x : Q) : string :=
  let scaled := round_half_even (Z.abs (Qnum x) * 10000000) (Z.pos (Qden x)) in
  fixed7 (Qnum x <? 0) (Z.to_N scaled).

#[export] Instance Q_Number : Number Q := {|
  nzero := 0%Q;
  nadd := Qplus;
  nsub := Qminus;
  nmul := Qmult;
  ndiv := Qdiv;
  nleb := Qle_bool;
  ngtb := fun x y => negb (Qle_bool x y);
  ParseFloat := ParseFloatQ;
  Sprintf7 := Sprintf7_Q
|}.

(* ===================================================================== *)
(** * 3. plugins/volumeFilter.go                                          *)
(* ===================================================================== *)

Local Open Scope list_scope.

(** [type volumeFilterMode string] *)
Definition volumeFilterMode : Type := string.
Definition volumeFilterModeExact : volumeFilterMode := "exact".
Definition volumeFilterModeIgnore : volumeFilterMode := "ignore".

Definition parseVolumeFilterMode (mode : string) : volumeFilterMode * option string :=
  if String.eqb mode volumeFilterModeExact then (volumeFilterModeExact, None)
  else if String.eqb mode volumeFilterModeIgnore then (volumeFilterModeIgnore, None)
  else (volumeFilterModeExact, Some ("invalid input mode '" ++ mode ++ "'")%string).

(** [hProtocol.Asset] / [txnbuild.Asset]; the filter only hands assets to
    [utils.IsSelling]. *)
Record Asset := { AssetType : string; AssetCode : string; AssetIssuer : string }.

(** [txnbuild.ManageSellOffer] *)
Record ManageSellOffer := {
  Selling : Asset;
  Buying : Asset;
  Amount : string;
  Price : string;
  OfferID : Z
}.

(** [hProtocol.Offer]: a live offer of the account; the filter passes the
    two offer lists on without looking into them. *)
Record Offer := { OfferId : Z; OfferAmount : string; OfferPrice : string }.

(** A [*txnbuild.ManageSellOffer]. *)
Definition loc : Type := positive.

Definition withAmount (o : ManageSellOffer) (a : string) : ManageSellOffer :=
  {| Selling := Selling o; Buying := Buying o; Amount := a;
     Price := Price o; OfferID := OfferID o |}.

(** The error values the two functions build, by the place that builds them. *)
Inductive error :=
  | ErrExternal (msg : string)           (* an error made outside this file *)
  | ErrIsSelling (e : error)             (* volumeFilterFn, isSelling check *)
  | ErrPrice (price : string)            (* volumeFilterFn, price not a float *)
  | ErrAmount (amount : string)          (* volumeFilterFn, amount not a float *)
  | ErrQuery (date : string) (e : error) (* Apply, QueryRow failed *)
  | ErrQueryType                         (* Apply, result is not *DailyVolume *)
  | ErrApplyFilter (e : error)           (* Apply, filterOps failed *)
  | ErrNilDereference.                   (* run-time panic on a dangling pointer *)

Inductive result (A : Type) :=
  | Ok (a : A)
  | Err (e : error).
Arguments Ok {A} a.
Arguments Err {A} e.

Section VolumeFilter.
Context {num : Type} `{Number num}.

(** [queries.DailyVolume] *)
Record DailyVolume := { BaseVol : num; QuoteVol : num }.

(** What [QueryRow] hands back as an [interface{}]. *)
Inductive queryResult :=
  | IsDailyVolume (v : DailyVolume)
  | IsOtherType.

Record VolumeFilterConfig := {
  SellBaseAssetCapInBaseUnits : option num;
  SellBaseAssetCapInQuoteUnits : option num;
  mode : volumeFilterMode;
  additionalMarketIDs : list string;
  optionalAccountIDs : list string
}.

Record limitParameters := {
  sellBaseAssetCapInBaseUnits : option num;
  sellBaseAssetCapInQuoteUnits : option num;
  lp_mode : volumeFilterMode
}.

Record volumeFilter := {
  name : string;
  configValue : string;
  baseAsset : Asset;
  quoteAsset : Asset;
  config : VolumeFilterConfig;
  (* the bound query object, as its method QueryRow *)
  dailyVolumeByDateQuery : string -> result queryResult
}.

(** The mutable world of one call: the operations behind the pointers of
    the batch, the two cells [dailyTbbSellBase] and [dailyTbbSellQuote]
    that [dailyTBB] points to, and the dates [QueryRow] was called with. *)
Record state := {
  offers : gmap loc ManageSellOffer;
  dailyTbbSellBase : num;
  dailyTbbSellQuote : num;
  queryLog : list string
}.

Definition M (A : Type) : Type := state -> result A * state.

Definition ret {A} (a : A) : M A := fun s => (Ok a, s).
Definition fail {A} (e : error) : M A := fun s => (Err e, s).
Definition bind {A B} (m : M A) (k : A -> M B) : M B :=
  fun s => match m s with
           | (Ok a, s') => k a s'
           | (Err e, s') => (Err e, s')
           end.

(** [*op] *)
Definition load (op : loc) : M ManageSellOffer :=
  fun s => match offers s !! op with
           | Some o => (Ok o, s)
           | None => (Err ErrNilDereference, s)
           end.

(** [op.Amount = a] *)
Definition storeAmount (op : loc) (a : string) : M unit :=
  fun s => match offers s !! op with
           | Some o =>
               (Ok tt, {| offers := <[op := withAmount o a]> (offers s);
                          dailyTbbSellBase := dailyTbbSellBase s;
                          dailyTbbSellQuote := dailyTbbSellQuote s;
                          queryLog := queryLog s |})
           | None => (Err ErrNilDereference, s)
           end.

Definition readTbbBase : M num := fun s => (Ok (dailyTbbSellBase s), s).
Definition readTbbQuote : M num := fun s => (Ok (dailyTbbSellQuote s), s).

Definition writeTbb (b q : num) : M unit :=
  fun s => (Ok tt, {| offers := offers s; dailyTbbSellBase := b;
                      dailyTbbSellQuote := q; queryLog := queryLog s |}).

Definition logQuery (date : string) : M unit :=
  fun s => (Ok tt, {| offers := offers s;
                      dailyTbbSellBase := dailyTbbSellBase s;
                      dailyTbbSellQuote := dailyTbbSellQuote s;
                      queryLog := queryLog s ++ [date] |}).

Definition parseFloatOr (e : string -> error) (str : string) : M num :=
  match ParseFloat str with
  | Some x => ret x
  | None => fail (e str)
  end.

End VolumeFilter.

Arguments DailyVolume num : clear implicits.
Arguments queryResult num : clear implicits.
Arguments VolumeFilterConfig num : clear implicits.
Arguments limitParameters num : clear implicits.
Arguments volumeFilter num : clear implicits.
Arguments state num : clear implicits.
Arguments M num A : clear implicits.

Declare Scope filter_scope.
Delimit Scope filter_scope with filter.
Notation "'let*' x ':=' m 'in' k" := (bind m (fun x => k))
  (at level 10, x name, m at level 100, k at level 200) : filter_scope.
Local Open Scope filter_scope.

Section VolumeFilterFn.
Context {num : Type} `{Number num}.

(** [utils.IsSelling(base, quote, selling, buying)] lives in another
    package; the filter only needs its result. *)
Variable IsSelling : Asset -> Asset -> Asset -> Asset -> result bool.

Definition isSellingOr (base quote selling buying : Asset) : M num bool :=
  match IsSelling base quote selling buying with
  | Ok b => ret b
  | Err e => fail (ErrIsSelling e)
  end.

(** [volumeFilterFn], lines 161-230.  [dailyOTB] is only read: its two
    pointers are to the [BaseVol] and [QuoteVol] of the query result, and it
    is passed as that [DailyVolume].  The accumulator [dailyTBBAccumulator]
    is the pair of cells in the state.  Go evaluates [a + b + c] and
    [a - b - c] from the left. *)
Definition volumeFilterFn (dailyOTB : DailyVolume num) (op : loc)
    (baseAsset quoteAsset : Asset) (lp : limitParameters num) : M num (option loc) :=
  let* o := load op in
  let* isSell := isSellingOr baseAsset quoteAsset (Selling o) (Buying o) in
  let* sellPrice := parseFloatOr ErrPrice (Price o) in
  let* amountValueUnitsBeingSold := parseFloatOr ErrAmount (Amount o) in
  if isSell then
    let opToReturn := op in
    let newAmountBeingSold := amountValueUnitsBeingSold in
    let* kb :=
      match sellBaseAssetCapInBaseUnits lp with
      | Some cap =>
         (let* tbb := readTbbBase in
          let projectedSoldInBaseUnits :=
            nadd (nadd (BaseVol dailyOTB) tbb) amountValueUnitsBeingSold in
          let keepSellingBase := nleb projectedSoldInBaseUnits cap in
          if String.eqb (lp_mode lp) volumeFilterModeExact && negb keepSellingBase then
            let newAmount := nsub (nsub cap (BaseVol dailyOTB)) tbb in
            if ngtb newAmount nzero then
              let* _ := storeAmount opToReturn (Sprintf7 newAmount) in
              ret (true, newAmount)
            else ret (keepSellingBase, newAmountBeingSold)
          else ret (keepSellingBase, newAmountBeingSold))
      | None => ret (true, newAmountBeingSold)
      end in
    let keepSellingBase := fst kb in
    let newAmountBeingSold := snd kb in
    let* kq :=
      match sellBaseAssetCapInQuoteUnits lp with
      | Some cap =>
         (let* tbb := readTbbQuote in
          let projectedSoldInQuoteUnits :=
            nadd (nadd (QuoteVol dailyOTB) tbb) (nmul newAmountBeingSold sellPrice) in
          let keepSellingQuote := nleb projectedSoldInQuoteUnits cap in
          if String.eqb (lp_mode lp) volumeFilterModeExact && negb keepSellingQuote then
            let newAmount := ndiv (nsub (nsub cap (QuoteVol dailyOTB)) tbb) sellPrice in
            if ngtb newAmount nzero then
              let* _ := storeAmount opToReturn (Sprintf7 newAmount) in
              ret (true, newAmount)
            else ret (keepSellingQuote, newAmountBeingSold)
          else ret (keepSellingQuote, newAmountBeingSold))
      | None => ret (true, newAmountBeingSold)
      end in
    let keepSellingQuote := fst kq in
    let newAmountBeingSold := snd kq in
    if keepSellingBase && keepSellingQuote then
      let* tb := readTbbBase in
      let* tq := readTbbQuote in
      let* _ := writeTbb (nadd tb newAmountBeingSold)
                         (nadd tq (nmul newAmountBeingSold sellPrice)) in
      ret (Some opToReturn)
    else ret None
  else
    ret None.

(** Modelled from the spec: [filterOps] of plugins/submitFilter.go, which
    is not among the sources.  Section 4.3: the helper "classifies each
    operation as selling-the-base-asset or not by comparing its sell/buy
    asset pair against the filter's configured base/quote pair, then
    invokes a caller-supplied per-operation function only on sell-side
    operations, passing buy-side operations through unchanged", it "folds
    a per-operation transform over the batch, discarding operations the
    transform rejects", the output keeps the order of the batch, and "a
    non-nil error aborts the entire batch".  The live offers are
    "read-only context". *)
Fixpoint filterOps (filterName : string) (baseAsset quoteAsset : Asset)
    (sellingOffers buyingOffers : list Offer) (ops : list loc)
    (fn : loc -> M num (option loc)) : M num (list loc) :=
  match ops with
  | [] => ret []
  | op :: rest =>
      let* o := load op in
      let* isSell := isSellingOr baseAsset quoteAsset (Selling o) (Buying o) in
      let* newOp := (if isSell : bool then fn op else ret (Some op)) in
      let* kept := filterOps filterName baseAsset quoteAsset
                     sellingOffers buyingOffers rest fn in
      ret (match newOp with
           | Some op' => op' :: kept
           | None => kept
           end)
  end.

(** [f.dailyVolumeByDateQuery.QueryRow(dateString)]: one call to the
    query collaborator, recorded in [queryLog]. *)
Definition QueryRow (f : volumeFilter num) (dateString : string) : M num (queryResult num) :=
  let* _ := logQuery dateString in
  match dailyVolumeByDateQuery f dateString with
  | Ok r => ret r
  | Err e => fail (ErrQuery dateString e)
  end.

(** The closure [innerFn] of [Apply], lines 146-153. *)
Definition innerFn (f : volumeFilter num) (dailyOTB : DailyVolume num)
    (op : loc) : M num (option loc) :=
  let limitParameters :=
    {| sellBaseAssetCapInBaseUnits := SellBaseAssetCapInBaseUnits (config f);
       sellBaseAssetCapInQuoteUnits := SellBaseAssetCapInQuoteUnits (config f);
       lp_mode := mode (config f) |} in
  volumeFilterFn dailyOTB op (baseAsset f) (quoteAsset f) limitParameters.

(** [ops, e = filterOps(...); if e != nil { return nil, fmt.Errorf(...) }] *)
Definition orApplyError {A} (m : M num A) : M num A :=
  fun s => match m s with
           | (Ok a, s') => (Ok a, s')
           | (Err e, s') => (Err (ErrApplyFilter e), s')
           end.

(** [volumeFilter.Apply], lines 118-159.  [dateString] is the reading of
    the clock, [time.Now().UTC().Format(...)]. *)
Definition Apply (f : volumeFilter num) (dateString : string) (ops : list loc)
    (sellingOffers buyingOffers : list Offer) : M num (list loc) :=
  let* queryResult := QueryRow f dateString in
  match queryResult with
  | IsOtherType => fail ErrQueryType
  | IsDailyVolume dailyValuesBaseSold =>
      let dailyOTB := dailyValuesBaseSold in
      let* _ := writeTbb nzero nzero in
      orApplyError
        (filterOps (name f) (baseAsset f) (quoteAsset f)
           sellingOffers buyingOffers ops (innerFn f dailyOTB))
  end.

Definition isEmpty (c : VolumeFilterConfig num) : bool :=
  match SellBaseAssetCapInBaseUnits c with
  | Some _ => false
  | None =>
      match SellBaseAssetCapInQuoteUnits c with
      | Some _ => false
      | None => true
      end
  end.

Definition Validate (c : VolumeFilterConfig num) : option string :=
  if isEmpty c then Some "the volumeFilterConfig was empty" else None.

End VolumeFilterFn.

(** ** Construction of the filter *)

(** [model.TradingPair]; its two assets are of the string type
    [model.Asset]. *)
Record TradingPair := { Base : string; Quote : string }.

(** The three errors [makeFilterVolume] builds, by the step that failed. *)
Inductive makeError :=
  | ErrBaseAssetDisplay (base : string) (e : error)
  | ErrQuoteAssetDisplay (quote : string) (e : error)
  | ErrMakeQuery (e : error).

Section MakeFilterVolume.
Context {num : Type} `{Number num}.

(** What [makeFilterVolume] takes from other packages: the database handle
    [*sql.DB], [MakeMarketID], [utils.Dedupe], and the constructor of the
    query object [queries.MakeDailyVolumeByDateForMarketIdsAction], whose
    result is kept as its method [QueryRow]. *)
Variable DB : Type.
Variable MakeMarketID : string -> string -> string -> string.
Variable Dedupe : list string -> list string.
Variable MakeDailyVolumeByDateForMarketIdsAction :
  DB -> list string -> string -> list string ->
  result (string -> result (queryResult num)).

(** [makeFilterVolume], lines 63-100.  [assetDisplayFn] is the argument of
    type [model.AssetDisplayFn]; [config] is a non-nil pointer. *)
Definition makeFilterVolume (configValue exchangeName : string)
    (tradingPair : TradingPair) (assetDisplayFn : string -> result string)
    (baseAsset quoteAsset : Asset) (db : DB) (config : VolumeFilterConfig num)
    : makeError + volumeFilter num :=
  match assetDisplayFn (Base tradingPair) with
  | Err e => inl (ErrBaseAssetDisplay (Base tradingPair) e)
  | Ok baseAssetString =>
      match assetDisplayFn (Quote tradingPair) with
      | Err e => inl (ErrQuoteAssetDisplay (Quote tradingPair) e)
      | Ok quoteAssetString =>
          let marketID := MakeMarketID exchangeName baseAssetString quoteAssetString in
          let marketIDs := Dedupe ([marketID] ++ additionalMarketIDs config) in
          match MakeDailyVolumeByDateForMarketIdsAction db marketIDs "sell"
                  (optionalAccountIDs config) with
          | Err e => inl (ErrMakeQuery e)
          | Ok dailyVolumeByDateQuery =>
              inr {| name := "volumeFilter";
                     configValue := configValue;
                     baseAsset := baseAsset;
                     quoteAsset := quoteAsset;
                     config := config;
                     dailyVolumeByDateQuery := dailyVolumeByDateQuery |}
          end
      end
  end.

End MakeFilterVolume.

(* ===================================================================== *)
(** * 4. The per-operation rule in the words of the specification         *)
(* ===================================================================== *)

Section SpecStep.
Context {num : Type} `{Number num}.

(** Step 3b: "projectedBase = OTB.soldBaseUnits + TBB.soldBaseUnits +
    amount.  Admissible iff projectedBase <= cap.  If inadmissible and
    mode is exact: compute trimmed = cap - OTB.soldBaseUnits -
    TBB.soldBaseUnits; if trimmed > 0, rewrite the operation's amount to
    trimmed and treat the base-units check as passed with the new amount;
    otherwise it remains inadmissible.  If mode is ignore, no rewrite is
    attempted."  The result is (admissible, the rewrite if any). *)
Definition specBaseCheck (md : volumeFilterMode) (cap otb tbb amount : num)
    : bool * option num :=
  let projectedBase := nadd (nadd otb tbb) amount in
  if nleb projectedBase cap then (true, None)
  else if String.eqb md volumeFilterModeExact then
    let trimmed := nsub (nsub cap otb) tbb in
    if ngtb trimmed nzero then (true, Some trimmed) else (false, None)
  else (false, None).

(** Step 3c: "projectedQuote = OTB.soldQuoteUnits + TBB.soldQuoteUnits +
    amount*price.  Same admit/trim/drop logic as (b), but trimming solves
    for amount = (cap - OTB.soldQuoteUnits - TBB.soldQuoteUnits) / price." *)
Definition specQuoteCheck (md : volumeFilterMode) (cap otb tbb amount price : num)
    : bool * option num :=
  let projectedQuote := nadd (nadd otb tbb) (nmul amount price) in
  if nleb projectedQuote cap then (true, None)
  else if String.eqb md volumeFilterModeExact then
    let trimmed := ndiv (nsub (nsub cap otb) tbb) price in
    if ngtb trimmed nzero then (true, Some trimmed) else (false, None)
  else (false, None).

(** "an unconfigured cap is vacuously admissible" *)
Definition whenConfigured (cap : option num) (check : num -> bool * option num)
    : bool * option num :=
  match cap with
  | Some c => check c
  | None => (true, None)
  end.

Record outcome := {
  keepBase : bool;            (* the base-units check ended admissible *)
  keepQuote : bool;           (* the quote-units check ended admissible *)
  trimBase : option num;      (* the rewrite made by the base check *)
  trimQuote : option num;     (* the rewrite made by the quote check *)
  finalAmount : num           (* the amount after both checks *)
}.

(** Steps 3b then 3c: the quote check receives the amount the base check
    produced. *)
Definition specStep (lp : limitParameters num) (otb : DailyVolume num)
    (tbbBase tbbQuote : num) (price amount : num) : outcome :=
  let b := whenConfigured (sellBaseAssetCapInBaseUnits lp)
             (fun cap => specBaseCheck (lp_mode lp) cap (BaseVol otb) tbbBase amount) in
  let amountAfterBase := default amount (snd b) in
  let q := whenConfigured (sellBaseAssetCapInQuoteUnits lp)
             (fun cap => specQuoteCheck (lp_mode lp) cap (QuoteVol otb) tbbQuote
                           amountAfterBase price) in
  {| keepBase := fst b; keepQuote := fst q;
     trimBase := snd b; trimQuote := snd q;
     finalAmount := default amountAfterBase (snd q) |}.

(** The two checks evaluated independently of each other: the quote check
    on the operation's original amount.  This is NOT what the code does;
    it is here to be compared with [specStep]. *)
Definition independentStep (lp : limitParameters num) (otb : DailyVolume num)
    (tbbBase tbbQuote : num) (price amount : num) : outcome :=
  let b := whenConfigured (sellBaseAssetCapInBaseUnits lp)
             (fun cap => specBaseCheck (lp_mode lp) cap (BaseVol otb) tbbBase amount) in
  let q := whenConfigured (sellBaseAssetCapInQuoteUnits lp)
             (fun cap => specQuoteCheck (lp_mode lp) cap (QuoteVol otb) tbbQuote
                           amount price) in
  {| keepBase := fst b; keepQuote := fst q;
     trimBase := snd b; trimQuote := snd q;
     finalAmount := default (default amount (snd b)) (snd q) |}.

Definition kept (o : outcome) : bool := keepBase o && keepQuote o.

(** The last rewrite of the operation's amount, if there was one. *)
Definition lastRewrite (o : outcome) : option num :=
  match trimQuote o with
  | Some t => Some t
  | None => trimBase o
  end.

(** The state an operation leaves behind: its [Amount] rewritten when a
    check trimmed it, the accumulator advanced when it is kept. *)
Definition stateAfter (s : state num) (op : loc) (price : num) (o : outcome)
    : state num :=
  {| offers :=
       match lastRewrite o, offers s !! op with
       | Some t, Some m => <[op := withAmount m (Sprintf7 t)]> (offers s)
       | _, _ => offers s
       end;
     dailyTbbSellBase :=
       if kept o then nadd (dailyTbbSellBase s) (finalAmount o)
       else dailyTbbSellBase s;
     dailyTbbSellQuote :=
       if kept o then nadd (dailyTbbSellQuote s) (nmul (finalAmount o) price)
       else dailyTbbSellQuote s;
     queryLog := queryLog s |}.

End SpecStep.

Arguments outcome num : clear implicits.

(* ===================================================================== *)
(** * 5. Vocabulary of the statements                                     *)
(* ===================================================================== *)

Section Vocabulary.
Context {num : Type} `{Number num}.
Variable IsSelling : Asset -> Asset -> Asset -> Asset -> result bool.

(** How the pair of an operation is classified: [Some true] sells the
    base asset, [Some false] is the buy side, [None] when the pointer is
    dangling or the pair cannot be classified. *)
Definition classify (base quote : Asset) (s : state num) (op : loc) : option bool :=
  match offers s !! op with
  | Some m =>
      match IsSelling base quote (Selling m) (Buying m) with
      | Ok b => Some b
      | Err _ => None
      end
  | None => None
  end.

Definition isBuySide (base quote : Asset) (s : state num) (op : loc) : bool :=
  match classify base quote s op with
  | Some false => true
  | _ => false
  end.

(** What it takes for a call to get past its fallible steps with a
    sell-side operation: the pointer is live, the pair is classified as
    selling the base asset, and price and amount parse. *)
Definition sellCall (s : state num) (op : loc) (base quote : Asset)
    (price amount : num) : Prop :=
  exists m, offers s !! op = Some m /\
    IsSelling base quote (Selling m) (Buying m) = Ok true /\
    ParseFloat (Price m) = Some price /\
    ParseFloat (Amount m) = Some amount.

(** [x >= 0] by the comparisons of the arithmetic itself. *)
Definition nonneg (x : num) : bool := nleb nzero x || ngtb x nzero.



(** Two records that differ at most in their amount text. *)
Definition sameButAmount (m m' : ManageSellOffer) : Prop :=
  Selling m' = Selling m /\ Buying m' = Buying m /\
  Price m' = Price m /\ OfferID m' = OfferID m.

(** [s'] has the same pointers as [s], each to a record that differs at
    most in its amount text, and the same query log. *)
Definition onlyAmountsChanged (s s' : state num) : Prop :=
  queryLog s' = queryLog s /\
  forall l, match offers s !! l, offers s' !! l with
            | Some m, Some m' => sameButAmount m m'
            | None, None => True
            | _, _ => False
            end.


(** The limits [innerFn] hands to [volumeFilterFn]. *)
Definition limitsOf (c : VolumeFilterConfig num) : limitParameters num :=
  {| sellBaseAssetCapInBaseUnits := SellBaseAssetCapInBaseUnits c;
     sellBaseAssetCapInQuoteUnits := SellBaseAssetCapInQuoteUnits c;
     lp_mode := mode c |}.

(** The state once [Apply] has made its query, and the state in which
    it starts the fold: the query logged, the accumulator at zero. *)
Definition afterQuery (s : state num) (date : string) : state num :=
  {| offers := offers s;
     dailyTbbSellBase := dailyTbbSellBase s;
     dailyTbbSellQuote := dailyTbbSellQuote s;
     queryLog := queryLog s ++ [date] |}.

Definition passStart (s : state num) (date : string) : state num :=
  {| offers := offers s;
     dailyTbbSellBase := nzero;
     dailyTbbSellQuote := nzero;
     queryLog := queryLog s ++ [date] |}.


Definition amountAt (s : state num) (op : loc) : option string :=
  Amount <$> offers s !! op.

(** The state with the accumulator advanced by the amount [n] sold at
    [price]. *)
Definition booked (s : state num) (n price : num) : state num :=
  {| offers := offers s;
     dailyTbbSellBase := nadd (dailyTbbSellBase s) n;
     dailyTbbSellQuote := nadd (dailyTbbSellQuote s) (nmul n price);
     queryLog := queryLog s |}.

Definition setAmountAt (s : state num) (op : loc) (a : string) : state num :=
  {| offers :=
       match offers s !! op with
       | Some m => <[op := withAmount m a]> (offers s)
       | None => offers s
       end;
     dailyTbbSellBase := dailyTbbSellBase s;
     dailyTbbSellQuote := dailyTbbSellQuote s;
     queryLog := queryLog s |}.

End Vocabulary.

(* ===================================================================== *)
(** * 6. Concrete data used in examples                                   *)
(* ===================================================================== *)

Definition asset_eqb (a b : Asset) : bool :=
  String.eqb (AssetType a) (AssetType b) &&
  String.eqb (AssetCode a) (AssetCode b) &&
  String.eqb (AssetIssuer a) (AssetIssuer b).

(** Modelled from the spec: [utils.IsSelling], which is not among the
    sources; it classifies an operation "by comparing its sell/buy asset
    pair against the filter's configured base/quote pair".  A pair that is
    neither (base, quote) nor (quote, base) cannot be classified. *)
Definition IsSellingPair (base quote selling buying : Asset) : result bool :=
  if asset_eqb selling base && asset_eqb buying quote then Ok true
  else if asset_eqb selling quote && asset_eqb buying base then Ok false
  else Err (ErrExternal "invalid assets").

Definition XLM : Asset :=
  {| AssetType := "native"; AssetCode := EmptyString; AssetIssuer := EmptyString |}.
Definition USD : Asset :=
  {| AssetType := "credit_alphanum4"; AssetCode := "USD"; AssetIssuer := "GISSUER" |}.

(** A sell of the base asset XLM for USD, and the opposite (buy-side) offer. *)
Definition sellOp (amount price : string) : ManageSellOffer :=
  {| Selling := XLM; Buying := USD; Amount := amount; Price := price; OfferID := 0 |}.
Definition buyOp (amount price : string) : ManageSellOffer :=
  {| Selling := USD; Buying := XLM; Amount := amount; Price := price; OfferID := 0 |}.

(** The value of a decimal literal; NaN / 0 when it is not one. *)
Definition f64 (s : string) : float64 := default S754_nan (ParseFloat64 s).

Definition heapOf (l : list ManageSellOffer) : gmap loc ManageSellOffer :=
  list_to_map (zip (map Pos.of_nat (seq 1 (length l))) l).

Definition initState {num} `{Number num} (l : list ManageSellOffer) : state num :=
  {| offers := heapOf l; dailyTbbSellBase := nzero; dailyTbbSellQuote := nzero;
     queryLog := [] |}.

(** A filter on XLM/USD whose query answers [answer] for every date. *)
Definition exampleFilter {num} (capBase capQuote : option num) (md : volumeFilterMode)
    (answer : result (queryResult num)) : volumeFilter num :=
  {| name := "volumeFilter"; configValue := "volume/sell/base/exact";
     baseAsset := XLM; quoteAsset := USD;
     config := {| SellBaseAssetCapInBaseUnits := capBase;
                  SellBaseAssetCapInQuoteUnits := capQuote;
                  mode := md; additionalMarketIDs := []; optionalAccountIDs := [] |};
     dailyVolumeByDateQuery := fun _ => answer |}.

Definition dailyVolume {num} (b q : num) : result (queryResult num) :=
  Ok (IsDailyVolume {| BaseVol := b; QuoteVol := q |}).

Definition volume64 (b q : string) : DailyVolume float64 :=
  {| BaseVol := f64 b; QuoteVol := f64 q |}.

Definition exampleLimits {num} (capBase capQuote : option num) (md : volumeFilterMode)
    : limitParameters num :=
  {| sellBaseAssetCapInBaseUnits := capBase;
     sellBaseAssetCapInQuoteUnits := capQuote; lp_mode := md |}.

(** One call of [volumeFilterFn] on the first operation of a fresh batch
    of XLM/USD operations. *)
Definition firstCall {num} `{Number num} (otb : DailyVolume num)
    (lp : limitParameters num) (batch : list ManageSellOffer)
    : result (option loc) * state num :=
  volumeFilterFn IsSellingPair otb 1%positive XLM USD lp (initState batch).

(** [Apply] on a fresh batch of XLM/USD operations, all of them passed in. *)
Definition applyTo {num} `{Number num} (f : volumeFilter num)
    (batch : list ManageSellOffer) : result (list loc) * state num :=
  Apply IsSellingPair f "2020-01-01"
    (map Pos.of_nat (seq 1 (length batch))) [] [] (initState batch).

(* ===================================================================== *)
(** * 7. Theorems: package orderbook                                      *)
(* ===================================================================== *)

Lemma OrderActionFromString_buy : OrderActionFromString "buy" = ActionBuy.
Proof. reflexivity. Qed.

Lemma OrderActionFromString_sell : OrderActionFromString "sell" = ActionSell.
Proof. reflexivity. Qed.

Lemma OrderTypeFromString_market : OrderTypeFromString "market" = TypeMarket.
Proof. reflexivity. Qed.

Lemma OrderTypeFromString_limit : OrderTypeFromString "limit" = TypeLimit.
Proof. reflexivity. Qed.

Lemma go_index_absent {V : Type} (zero : V) (m : gmap string V) (k : string) :
  m !! k = None -> go_index zero m k = zero.
Proof. intros E. unfold go_index. rewrite E. reflexivity. Qed.

Lemma orderActionMap_absent (s : string) :
  ~ recognizedAction s -> orderActionMap !! s = None.
Proof.
  intros Hs. unfold orderActionMap, recognizedAction in *.
  rewrite !lookup_insert_ne by (intros <-; tauto).
  apply lookup_empty.
Qed.

Lemma orderTypeMap_absent (s : string) :
  ~ recognizedType s -> orderTypeMap !! s = None.
Proof.
  intros Hs. unfold orderTypeMap, recognizedType in *.
  rewrite !lookup_insert_ne by (intros <-; tauto).
  apply lookup_empty.
Qed.

(** C1 (as the code has it): for every string that is not a recognized
    direction name, [OrderActionFromString] returns [ActionBuy], and for
    every string that is not a recognized style name, [OrderTypeFromString]
    returns [TypeMarket]: the zero values of the two types, the very values
    "buy" and "market" parse to. *)
Theorem C1_unrecognized_parses_to_zero_value (s t : string) :
  ~ recognizedAction s ->
  ~ recognizedType t ->
  OrderActionFromString s = ActionBuy /\
  OrderActionFromString s = OrderActionFromString "buy" /\
  OrderTypeFromString t = TypeMarket /\
  OrderTypeFromString t = OrderTypeFromString "market".
Proof.
  intros Hs Ht.
  assert (Ea : OrderActionFromString s = ActionBuy)
    by (apply go_index_absent, orderActionMap_absent, Hs).
  assert (Et : OrderTypeFromString t = TypeMarket)
    by (apply go_index_absent, orderTypeMap_absent, Ht).
  rewrite Ea, Et. repeat split; reflexivity.
Qed.

Lemma C1_unrecognized_parses_to_zero_value_witness :
  OrderActionFromString "hold" = ActionBuy /\
  OrderActionFromString "hold" = OrderActionFromString "buy" /\
  OrderTypeFromString "stop" = TypeMarket /\
  OrderTypeFromString "stop" = OrderTypeFromString "market".
Proof.
  apply (C1_unrecognized_parses_to_zero_value "hold" "stop").
  - unfold recognizedAction. intros [E | E]; discriminate E.
  - unfold recognizedType. intros [E | E]; discriminate E.
Defined.

(** C1 (as the specification states it) fails: "hold" is not a recognized
    name, yet both parsers return a valid value for it, and no valid value
    differs from what an unrecognized string parses to. *)
Lemma C1_counterexample :
  ~ (forall s : string,
       (~ recognizedAction s ->
          forall v : OrderAction, OrderActionFromString s <> v) /\
       (~ recognizedType s ->
          forall v : OrderType, validOrderType v -> OrderTypeFromString s <> v)).
Proof.
  intros Hclaim. destruct (Hclaim "hold") as [Ha _].
  apply (Ha ltac:(unfold recognizedAction; intros [E | E]; discriminate E) ActionBuy).
  reflexivity.
Qed.

(** C9: parsing the string of a valid direction or style gives the value
    back. *)
Theorem C9_parse_toString_roundtrip (a : OrderAction) (o : OrderType) :
  validOrderType o ->
  OrderActionFromString (OrderAction_String a) = a /\
  OrderTypeFromString (OrderType_String o) = o.
Proof.
  intros [-> | ->]; destruct a; split; reflexivity.
Qed.

Lemma C9_parse_toString_roundtrip_witness :
  OrderActionFromString (OrderAction_String ActionSell) = ActionSell /\
  OrderTypeFromString (OrderType_String TypeLimit) = TypeLimit.
Proof.
  apply (C9_parse_toString_roundtrip ActionSell TypeLimit).
  right. reflexivity.
Defined.


(* ===================================================================== *)
(** * 8. Theorems: one call of [volumeFilterFn]                           *)
(* ===================================================================== *)

Lemma withAmount_withAmount (o : ManageSellOffer) (a b : string) :
  withAmount (withAmount o a) b = withAmount o b.
Proof. reflexivity. Qed.

Section OneCall.
Context {num : Type} `{Number num}.
Variable IsSelling : Asset -> Asset -> Asset -> Asset -> result bool.

Implicit Types (s : state num) (op : loc) (m : ManageSellOffer)
  (lp : limitParameters num) (otb : DailyVolume num).

(** The code computes, for a sell-side operation, exactly the outcome of
    steps 3b-3d of the specification. *)
Lemma volumeFilterFn_sell otb op base quote lp s price amount :
  sellCall IsSelling s op base quote price amount ->
  volumeFilterFn IsSelling otb op base quote lp s =
    let o := specStep lp otb (dailyTbbSellBase s) (dailyTbbSellQuote s) price amount in
    (Ok (if kept o then Some op else None), stateAfter s op price o).
Proof.
  intros (m & Hm & Hsell & Hp & Ha). destruct s as [off tb tq ql]; simpl in *.
  unfold volumeFilterFn, specStep, stateAfter, kept, lastRewrite,
    whenConfigured, specBaseCheck, specQuoteCheck.
  unfold bind, load, isSellingOr, parseFloatOr, readTbbBase, readTbbQuote,
    writeTbb, storeAmount, ret, fail; simpl.
  rewrite Hm, Hsell, Hp, Ha; simpl.
  destruct (sellBaseAssetCapInBaseUnits lp) as [cb|],
           (sellBaseAssetCapInQuoteUnits lp) as [cq|]; simpl.
  all: destruct (String.eqb (lp_mode lp) volumeFilterModeExact); simpl.
  all: repeat (match goal with
       | |- context [<[?l:=?v]> ?mm !! ?l] => rewrite lookup_insert_eq
       | |- context [?mm !! ?l] => rewrite Hm
       | E : ngtb ?a ?b = _ |- context [ngtb ?a ?b] => rewrite E
       | E : nleb ?a ?b = _ |- context [nleb ?a ?b] => rewrite E
       | |- context [ngtb ?a ?b] => destruct (ngtb a b) eqn:?
       | |- context [nleb ?a ?b] => destruct (nleb a b) eqn:?
       end; simpl; cbn [from_option id]).
  all: rewrite ?insert_insert_eq; reflexivity.
Qed.

(** Every other call leaves the whole state as it was and returns no
    operation: an error, or [nil] for an operation that is not a sell. *)
Lemma volumeFilterFn_outcome otb op base quote lp s :
  (exists price amount, sellCall IsSelling s op base quote price amount) \/
  (snd (volumeFilterFn IsSelling otb op base quote lp s) = s /\
   (fst (volumeFilterFn IsSelling otb op base quote lp s) = Ok None \/
    exists e, fst (volumeFilterFn IsSelling otb op base quote lp s) = Err e)).
Proof.
  unfold sellCall, volumeFilterFn, bind, load, isSellingOr, parseFloatOr, ret, fail.
  destruct (offers s !! op) as [m|] eqn:Hm; simpl; [|right; eauto].
  destruct (IsSelling base quote (Selling m) (Buying m)) as [b|e] eqn:Hs;
    simpl; [|right; eauto].
  destruct (ParseFloat (Price m)) as [p|] eqn:Hp; simpl; [|right; eauto].
  destruct (ParseFloat (Amount m)) as [a|] eqn:Ha; simpl; [|right; eauto].
  destruct b; [left; eauto 10 | right; eauto].
Qed.

Lemma volumeFilterFn_not_selling otb op base quote lp s :
  classify IsSelling base quote s op = Some false ->
  volumeFilterFn IsSelling otb op base quote lp s = (Ok None, s) \/
  exists e, volumeFilterFn IsSelling otb op base quote lp s = (Err e, s).
Proof.
  unfold classify, volumeFilterFn, bind, load, isSellingOr, parseFloatOr, ret, fail.
  destruct (offers s !! op) as [m|]; [|discriminate].
  destruct (IsSelling base quote (Selling m) (Buying m)) as [[|]|e];
    try discriminate. intros _.
  destruct (ParseFloat (Price m)); simpl; [|right; eauto].
  destruct (ParseFloat (Amount m)); simpl; [left; reflexivity | right; eauto].
Qed.

End OneCall.

Section OneCallConsequences.
Context {num : Type} `{Number num}.
Variable IsSelling : Asset -> Asset -> Asset -> Asset -> result bool.

Implicit Types (s : state num) (op : loc) (m : ManageSellOffer)
  (lp : limitParameters num) (otb : DailyVolume num).

Lemma stateAfter_no_rewrite s op price (o : outcome num) :
  kept o = false -> lastRewrite o = None -> stateAfter s op price o = s.
Proof.
  intros Hk Hr. unfold stateAfter. rewrite Hk, Hr. destruct s; reflexivity.
Qed.

(** The returned pointer is the one that was passed in: [opToReturn := op]. *)
Lemma volumeFilterFn_returns_its_argument otb op base quote lp s l :
  fst (volumeFilterFn IsSelling otb op base quote lp s) = Ok (Some l) -> l = op.
Proof.
  destruct (volumeFilterFn_outcome IsSelling otb op base quote lp s)
    as [(p & a & Hc) | (_ & [E | (e & E)])].
  - rewrite (volumeFilterFn_sell IsSelling otb op base quote lp s p a Hc). simpl.
    destruct (kept _); congruence.
  - rewrite E. discriminate.
  - rewrite E. discriminate.
Qed.

(** C7: in ignore mode a sell operation whose original amount takes the
    projected volume over a configured cap (base: OTB + TBB + amount,
    quote: OTB + TBB + amount * price) is dropped, and nothing is
    rewritten: the call returns nil and the whole state, the operation's
    amount and the accumulator included, is as before. *)
Theorem C7_ignore_mode_drops_without_rewrite otb op base quote lp s price amount :
  lp_mode lp = volumeFilterModeIgnore ->
  sellCall IsSelling s op base quote price amount ->
  (exists cap, sellBaseAssetCapInBaseUnits lp = Some cap /\
     nleb (nadd (nadd (BaseVol otb) (dailyTbbSellBase s)) amount) cap = false) \/
  (exists cap, sellBaseAssetCapInQuoteUnits lp = Some cap /\
     nleb (nadd (nadd (QuoteVol otb) (dailyTbbSellQuote s)) (nmul amount price)) cap
       = false) ->
  volumeFilterFn IsSelling otb op base quote lp s = (Ok None, s).
Proof.
  intros Hmode Hc Hover.
  rewrite (volumeFilterFn_sell IsSelling otb op base quote lp s price amount Hc).
  cbv zeta.
  set (o := specStep _ _ _ _ _ _).
  assert (Hb : trimBase o = None).
  { unfold o, specStep, whenConfigured, specBaseCheck; simpl. rewrite Hmode.
    destruct (sellBaseAssetCapInBaseUnits lp); [|reflexivity].
    destruct (nleb _ _); reflexivity. }
  assert (Hq : trimQuote o = None).
  { unfold o, specStep, whenConfigured, specQuoteCheck; simpl. rewrite Hmode.
    destruct (sellBaseAssetCapInQuoteUnits lp); [|reflexivity].
    destruct (nleb _ _); reflexivity. }
  assert (Hk : kept o = false).
  { unfold kept. destruct Hover as [(cap & Hcap & Hle) | (cap & Hcap & Hle)].
    - replace (keepBase o) with false; [reflexivity|].
      unfold o, specStep, whenConfigured, specBaseCheck; simpl.
      rewrite Hcap, Hle, Hmode. reflexivity.
    - replace (keepQuote o) with false; [apply andb_false_r|].
      unfold o in Hb |- *. unfold specStep in Hb |- *. simpl in Hb |- *.
      rewrite Hb. unfold whenConfigured, specQuoteCheck. simpl.
      rewrite Hcap, Hle, Hmode. reflexivity. }
  rewrite Hk. f_equal. apply stateAfter_no_rewrite; [exact Hk|].
  unfold lastRewrite. rewrite Hq. exact Hb.
Qed.


(** C10: in exact mode with both caps configured, when the base-units
    check trims a sell operation to the positive headroom and the
    quote-units check then rejects it (over the quote cap with the
    trimmed amount, and no positive quote headroom), the call returns nil
    and leaves the accumulator alone, but the operation behind the
    caller's pointer now carries the trimmed amount.  Whenever an
    operation is returned it is the caller's own pointer. *)
Theorem C10_dropped_operation_keeps_rewritten_amount
    otb op base quote lp s price amount capB capQ :
  lp_mode lp = volumeFilterModeExact ->
  sellBaseAssetCapInBaseUnits lp = Some capB ->
  sellBaseAssetCapInQuoteUnits lp = Some capQ ->
  sellCall IsSelling s op base quote price amount ->
  nleb (nadd (nadd (BaseVol otb) (dailyTbbSellBase s)) amount) capB = false ->
  ngtb (nsub (nsub capB (BaseVol otb)) (dailyTbbSellBase s)) nzero = true ->
  nleb (nadd (nadd (QuoteVol otb) (dailyTbbSellQuote s))
          (nmul (nsub (nsub capB (BaseVol otb)) (dailyTbbSellBase s)) price)) capQ
    = false ->
  ngtb (ndiv (nsub (nsub capQ (QuoteVol otb)) (dailyTbbSellQuote s)) price) nzero
    = false ->
  volumeFilterFn IsSelling otb op base quote lp s =
    (Ok None,
     setAmountAt s op (Sprintf7 (nsub (nsub capB (BaseVol otb)) (dailyTbbSellBase s)))) /\
  amountAt (snd (volumeFilterFn IsSelling otb op base quote lp s)) op =
    Some (Sprintf7 (nsub (nsub capB (BaseVol otb)) (dailyTbbSellBase s))) /\
  (forall l, fst (volumeFilterFn IsSelling otb op base quote lp s) = Ok (Some l) ->
     l = op).
Proof.
  intros Hmode HcB HcQ Hc Hb Hh Hq Hhq.
  assert (E : volumeFilterFn IsSelling otb op base quote lp s =
    (Ok None,
     setAmountAt s op (Sprintf7 (nsub (nsub capB (BaseVol otb)) (dailyTbbSellBase s))))).
  { rewrite (volumeFilterFn_sell IsSelling otb op base quote lp s price amount Hc).
    unfold specStep, whenConfigured, specBaseCheck, specQuoteCheck,
      stateAfter, kept, lastRewrite, setAmountAt; simpl.
    rewrite HcB, HcQ, Hmode, Hb; simpl. rewrite Hh; simpl.
    rewrite Hq; simpl. rewrite Hhq; simpl. reflexivity. }
  split; [exact E|]. split.
  - rewrite E. simpl. destruct Hc as (m & Hm & _).
    unfold amountAt, setAmountAt; simpl. rewrite Hm, lookup_insert_eq. reflexivity.
  - apply volumeFilterFn_returns_its_argument.
Qed.

(** C5: with both caps configured, the quote-units check of a sell
    operation is evaluated after the base-units check and on the amount
    that check produced: projectedQuote = OTB + TBB + amount' * price
    with amount' the trim of the base check if it made one, the original
    amount otherwise.  The result, the rewrite of the operation and the
    update of the accumulator are those of the two checks of the
    specification chained in that order. *)
Theorem C5_quote_check_runs_on_amount_of_base_check
    otb op base quote lp s price amount capB capQ :
  sellBaseAssetCapInBaseUnits lp = Some capB ->
  sellBaseAssetCapInQuoteUnits lp = Some capQ ->
  sellCall IsSelling s op base quote price amount ->
  let b := specBaseCheck (lp_mode lp) capB (BaseVol otb) (dailyTbbSellBase s) amount in
  let amountAfterBase := default amount (snd b) in
  let q := specQuoteCheck (lp_mode lp) capQ (QuoteVol otb) (dailyTbbSellQuote s)
             amountAfterBase price in
  let o := {| keepBase := fst b; keepQuote := fst q;
              trimBase := snd b; trimQuote := snd q;
              finalAmount := default amountAfterBase (snd q) |} in
  volumeFilterFn IsSelling otb op base quote lp s =
    (Ok (if fst b && fst q then Some op else None), stateAfter s op price o) /\
  fst q =
    (nleb (nadd (nadd (QuoteVol otb) (dailyTbbSellQuote s))
             (nmul amountAfterBase price)) capQ
     || String.eqb (lp_mode lp) volumeFilterModeExact
        && ngtb (ndiv (nsub (nsub capQ (QuoteVol otb)) (dailyTbbSellQuote s)) price)
             nzero).
Proof.
  intros HcB HcQ Hc b amountAfterBase q o. split.
  - rewrite (volumeFilterFn_sell IsSelling otb op base quote lp s price amount Hc).
    unfold specStep, whenConfigured. rewrite HcB, HcQ. reflexivity.
  - unfold q, specQuoteCheck.
    destruct (nleb _ capQ); [reflexivity|].
    destruct (String.eqb _ _); [|reflexivity].
    destruct (ngtb _ _); reflexivity.
Qed.

(** Every rewrite of an operation's amount is to the text of a number that
    passed the test [newAmount > 0]. *)
Lemma rewrite_only_to_positive otb op base quote lp s :
  let s' := snd (volumeFilterFn IsSelling otb op base quote lp s) in
  amountAt s' op = amountAt s op \/
  exists n, ngtb n nzero = true /\ amountAt s' op = Some (Sprintf7 n).
Proof.
  cbv zeta.
  destruct (volumeFilterFn_outcome IsSelling otb op base quote lp s)
    as [(p & a & Hc) | (E & _)]; [|rewrite E; left; reflexivity].
  rewrite (volumeFilterFn_sell IsSelling otb op base quote lp s p a Hc). cbv zeta.
  set (o := specStep _ _ _ _ _ _). simpl.
  destruct Hc as (m & Hm & _).
  unfold amountAt, stateAfter; simpl. rewrite Hm.
  destruct (lastRewrite o) as [t|] eqn:Hr; [|left; rewrite Hm; reflexivity].
  right. exists t. rewrite lookup_insert_eq. split; [|reflexivity].
  revert Hr. unfold lastRewrite, o, specStep, whenConfigured,
    specBaseCheck, specQuoteCheck; simpl.
  destruct (sellBaseAssetCapInBaseUnits lp), (sellBaseAssetCapInQuoteUnits lp); simpl.
  all: repeat match goal with
       | |- context [if ?c then _ else _] => destruct c eqn:?; simpl
       end; intros; simplify_eq; assumption.
Qed.

(** The amount after both checks is the operation's own amount or a trim
    that passed [> 0]: it is non-negative when the operation's amount is. *)
Lemma specStep_finalAmount_nonneg lp otb (tb tq price amount : num) :
  nonneg amount = true ->
  nonneg (finalAmount (specStep lp otb tb tq price amount)) = true.
Proof.
  intros Ha.
  unfold specStep, whenConfigured, specBaseCheck, specQuoteCheck, nonneg in *; simpl.
  destruct (sellBaseAssetCapInBaseUnits lp), (sellBaseAssetCapInQuoteUnits lp); simpl.
  all: repeat match goal with
       | |- context [if ?c then _ else _] => destruct c eqn:?; simpl
       end; try assumption.
  all: match goal with
       | E : ngtb ?t nzero = true |- _ => rewrite E; apply orb_true_r
       end.
Qed.


End OneCallConsequences.

(* ===================================================================== *)
(** * 9. Theorems: one pass over a batch                                  *)
(* ===================================================================== *)

Section OnePass.
Context {num : Type} `{Number num}.
Variable IsSelling : Asset -> Asset -> Asset -> Asset -> result bool.

Implicit Types (s : state num) (op l : loc) (m : ManageSellOffer)
  (lp : limitParameters num) (otb : DailyVolume num) (ops : list loc).

Lemma withAmount_same m : withAmount m (Amount m) = m.
Proof. destruct m; reflexivity. Qed.

Lemma sameButAmount_refl m : sameButAmount m m.
Proof. repeat split. Qed.

Lemma sameButAmount_withAmount m a : sameButAmount m (withAmount m a).
Proof. repeat split. Qed.

Lemma onlyAmountsChanged_refl s : onlyAmountsChanged s s.
Proof.
  split; [reflexivity|]. intros l. destruct (offers s !! l); [|exact I].
  apply sameButAmount_refl.
Qed.

Lemma onlyAmountsChanged_trans s1 s2 s3 :
  onlyAmountsChanged s1 s2 -> onlyAmountsChanged s2 s3 -> onlyAmountsChanged s1 s3.
Proof.
  intros [Q1 H1] [Q2 H2]. split; [congruence|]. intros l.
  specialize (H1 l). specialize (H2 l).
  destruct (offers s1 !! l), (offers s2 !! l), (offers s3 !! l); try tauto.
  unfold sameButAmount in *. intuition congruence.
Qed.

Lemma classify_stable base quote s s' l :
  onlyAmountsChanged s s' ->
  classify IsSelling base quote s' l = classify IsSelling base quote s l.
Proof.
  intros [_ Hs]. specialize (Hs l). unfold classify.
  destruct (offers s !! l) as [m|], (offers s' !! l) as [m'|]; try tauto.
  destruct Hs as (-> & -> & _). reflexivity.
Qed.

(** One call touches no record but that of its own operation, and of that
    one only the amount text. *)
Lemma volumeFilterFn_frame otb op base quote lp s :
  let s' := snd (volumeFilterFn IsSelling otb op base quote lp s) in
  onlyAmountsChanged s s' /\
  forall l, l <> op -> offers s' !! l = offers s !! l.
Proof.
  cbv zeta.
  destruct (volumeFilterFn_outcome IsSelling otb op base quote lp s)
    as [(p & a & Hc) | (E & _)].
  - rewrite (volumeFilterFn_sell IsSelling otb op base quote lp s p a Hc). cbv zeta.
    set (o := specStep _ _ _ _ _ _). simpl.
    destruct Hc as (m & Hm & _). unfold onlyAmountsChanged, stateAfter; simpl.
    rewrite Hm. destruct (lastRewrite o) as [t|].
    + split; [split; [reflexivity|]|].
      * intros l. destruct (decide (l = op)) as [->|Hne].
        -- rewrite Hm, lookup_insert_eq. apply sameButAmount_withAmount.
        -- rewrite lookup_insert_ne by congruence.
           destruct (offers s !! l); [apply sameButAmount_refl | exact I].
      * intros l Hne. apply lookup_insert_ne. congruence.
    + split; [|reflexivity]. apply (onlyAmountsChanged_refl s).
  - rewrite E. split; [apply onlyAmountsChanged_refl | reflexivity].
Qed.

(** ** Unfolding one step of the fold *)

Lemma filterOps_unclassified fname base quote so bo op s :
  classify IsSelling base quote s op = None ->
  exists e, forall ops fn,
    filterOps IsSelling fname base quote so bo (op :: ops) fn s = (Err e, s).
Proof.
  unfold classify. simpl.
  unfold bind, load, isSellingOr, ret, fail.
  destruct (offers s !! op) as [m|]; [|eauto].
  destruct (IsSelling base quote (Selling m) (Buying m)); [discriminate | eauto].
Qed.

Lemma filterOps_buy_side fname base quote so bo op ops fn s :
  classify IsSelling base quote s op = Some false ->
  filterOps IsSelling fname base quote so bo (op :: ops) fn s =
    match filterOps IsSelling fname base quote so bo ops fn s with
    | (Ok kept, s') => (Ok (op :: kept), s')
    | (Err e, s') => (Err e, s')
    end.
Proof.
  unfold classify. simpl.
  unfold bind, load, isSellingOr, ret, fail.
  destruct (offers s !! op) as [m|]; [|discriminate].
  destruct (IsSelling base quote (Selling m) (Buying m)) as [[|]|];
    try discriminate. intros _.
  destruct (filterOps _ _ _ _ _ _ _ _ _) as [[k|e] s']; reflexivity.
Qed.

Lemma filterOps_sell_side fname base quote so bo op ops fn s :
  classify IsSelling base quote s op = Some true ->
  filterOps IsSelling fname base quote so bo (op :: ops) fn s =
    match fn op s with
    | (Ok newOp, s1) =>
        match filterOps IsSelling fname base quote so bo ops fn s1 with
        | (Ok kept, s') =>
            (Ok (match newOp with Some l => l :: kept | None => kept end), s')
        | (Err e, s') => (Err e, s')
        end
    | (Err e, s1) => (Err e, s1)
    end.
Proof.
  unfold classify. simpl.
  unfold bind, load, isSellingOr, ret, fail.
  destruct (offers s !! op) as [m|]; [|discriminate].
  destruct (IsSelling base quote (Selling m) (Buying m)) as [[|]|];
    try discriminate. intros _.
  destruct (fn op s) as [[newOp|e] s1]; [|reflexivity].
  destruct (filterOps _ _ _ _ _ _ _ _ _) as [[k|e] s']; reflexivity.
Qed.

(** A property of states that every call of [fn] on an operation of the
    batch preserves is preserved by the pass. *)
Lemma filterOps_preserves (P : state num -> Prop) fname base quote so bo ops fn :
  (forall op s, In op ops -> P s -> P (snd (fn op s))) ->
  forall s, P s -> P (snd (filterOps IsSelling fname base quote so bo ops fn s)).
Proof.
  induction ops as [|op ops IH]; intros Hfn s Hs; [exact Hs|].
  destruct (classify IsSelling base quote s op) as [[|]|] eqn:Hcl.
  - rewrite (filterOps_sell_side _ _ _ _ _ _ _ _ _ Hcl).
    pose proof (Hfn op s (or_introl eq_refl) Hs) as H1.
    destruct (fn op s) as [[newOp|e] s1]; simpl in H1; [|exact H1].
    pose proof (IH (fun op' s' Hin => Hfn op' s' (or_intror Hin)) s1 H1) as H2.
    destruct (filterOps _ _ _ _ _ _ _ _ _) as [[k|e] s']; exact H2.
  - rewrite (filterOps_buy_side _ _ _ _ _ _ _ _ _ Hcl).
    pose proof (IH (fun op' s' Hin => Hfn op' s' (or_intror Hin)) s Hs) as H2.
    destruct (filterOps _ _ _ _ _ _ _ _ _) as [[k|e] s']; exact H2.
  - destruct (filterOps_unclassified fname _ _ so bo _ _ Hcl) as [e He].
    rewrite He. exact Hs.
Qed.


(** ** [Apply] is the query followed by one fold *)

Lemma Apply_unfold (f : volumeFilter num) date ops so bo s :
  Apply IsSelling f date ops so bo s =
    match dailyVolumeByDateQuery f date with
    | Err e => (Err (ErrQuery date e), afterQuery s date)
    | Ok IsOtherType => (Err ErrQueryType, afterQuery s date)
    | Ok (IsDailyVolume otb) =>
        orApplyError
          (filterOps IsSelling (name f) (baseAsset f) (quoteAsset f) so bo ops
             (innerFn IsSelling f otb))
          (passStart s date)
    end.
Proof.
  unfold Apply, QueryRow, bind, logQuery, writeTbb, ret, fail, afterQuery, passStart.
  destruct (dailyVolumeByDateQuery f date) as [[otb|]|e]; reflexivity.
Qed.

Lemma not_sell_call_unchanged otb op base quote lp s :
  classify IsSelling base quote s op <> Some true ->
  snd (volumeFilterFn IsSelling otb op base quote lp s) = s.
Proof.
  intros Hcl.
  destruct (volumeFilterFn_outcome IsSelling otb op base quote lp s)
    as [(p & a & m & Hm & Hs & _) | (E & _)]; [|exact E].
  exfalso. apply Hcl. unfold classify. rewrite Hm, Hs. reflexivity.
Qed.

(** The pass changes amount texts only, and only of sell-side operations
    of the batch. *)
Lemma filterOps_frame fname otb base quote lp so bo ops s :
  let s' := snd (filterOps IsSelling fname base quote so bo ops
                   (fun op => volumeFilterFn IsSelling otb op base quote lp) s) in
  onlyAmountsChanged s s' /\
  forall l, ~ In l ops \/ classify IsSelling base quote s l <> Some true ->
    offers s' !! l = offers s !! l.
Proof.
  cbv zeta.
  apply (filterOps_preserves
    (fun s' => onlyAmountsChanged s s' /\
       forall l, ~ In l ops \/ classify IsSelling base quote s l <> Some true ->
         offers s' !! l = offers s !! l)).
  - intros op s1 Hin [Hoa Hfr].
    destruct (volumeFilterFn_frame otb op base quote lp s1) as [Hoa1 Hfr1].
    split; [eapply onlyAmountsChanged_trans; eassumption|].
    intros l Hl. destruct (decide (l = op)) as [->|Hne].
    + destruct Hl as [Hl | Hl]; [tauto|].
      rewrite not_sell_call_unchanged; [apply Hfr; tauto|].
      rewrite (classify_stable base quote s s1 op Hoa). exact Hl.
    + rewrite Hfr1 by exact Hne. apply Hfr. exact Hl.
  - split; [apply onlyAmountsChanged_refl | reflexivity].
Qed.

Lemma isBuySide_stable base quote s s' l :
  onlyAmountsChanged s s' ->
  isBuySide IsSelling base quote s' l = isBuySide IsSelling base quote s l.
Proof.
  intros Hoa. unfold isBuySide. rewrite (classify_stable base quote s s' l Hoa).
  reflexivity.
Qed.

(** The buy-side operations of the output are those of the batch, in the
    same order. *)
Lemma filterOps_keeps_buy_side fname otb base quote lp so bo ops :
  forall s0 s kept,
    onlyAmountsChanged s0 s ->
    fst (filterOps IsSelling fname base quote so bo ops
           (fun op => volumeFilterFn IsSelling otb op base quote lp) s) = Ok kept ->
    List.filter (isBuySide IsSelling base quote s0) kept =
    List.filter (isBuySide IsSelling base quote s0) ops.
Proof.
  induction ops as [|op ops IH]; intros s0 s kept Hoa.
  - simpl. intros [= <-]. reflexivity.
  - destruct (classify IsSelling base quote s op) as [[|]|] eqn:Hcl.
    + rewrite (filterOps_sell_side _ _ _ _ _ _ _ _ _ Hcl).
      pose proof (volumeFilterFn_returns_its_argument IsSelling otb op base quote lp s)
        as Hret.
      pose proof (volumeFilterFn_frame otb op base quote lp s) as [Hoa1 _].
      destruct (volumeFilterFn IsSelling otb op base quote lp s) as [[newOp|e] s1];
        simpl in *; [|discriminate].
      pose proof (IH s0 s1) as IH1.
      destruct (filterOps _ _ _ _ _ _ _ _ _) as [[k|e] s']; simpl in *;
        [|discriminate].
      intros [= <-].
      assert (Hb : isBuySide IsSelling base quote s0 op = false).
      { rewrite <- (isBuySide_stable base quote s0 s op Hoa).
        unfold isBuySide. rewrite Hcl. reflexivity. }
      rewrite Hb.
      specialize (IH1 k (onlyAmountsChanged_trans _ _ _ Hoa Hoa1) eq_refl).
      destruct newOp as [l|]; [|exact IH1].
      rewrite (Hret l eq_refl). simpl. rewrite Hb. exact IH1.
    + rewrite (filterOps_buy_side _ _ _ _ _ _ _ _ _ Hcl).
      pose proof (IH s0 s) as IH1.
      destruct (filterOps _ _ _ _ _ _ _ _ _) as [[k|e] s']; simpl in *;
        [|discriminate].
      intros [= <-]. simpl. rewrite (IH1 k Hoa eq_refl). reflexivity.
    + destruct (filterOps_unclassified fname _ _ so bo _ _ Hcl) as [e He].
      rewrite He. discriminate.
Qed.

Lemma orApplyError_snd {A} (mm : M num A) s : snd (orApplyError mm s) = snd (mm s).
Proof. unfold orApplyError. destruct (mm s) as [[a|e] s']; reflexivity. Qed.

Lemma orApplyError_Ok {A} (mm : M num A) s a :
  fst (orApplyError mm s) = Ok a <-> fst (mm s) = Ok a.
Proof.
  unfold orApplyError. destruct (mm s) as [[a'|e] s']; simpl; split; congruence.
Qed.

(** C4: every buy-side operation of the batch passes through [Apply]
    unmodified, whatever the caps and the mode: when [Apply] returns a
    batch, its buy-side operations are those of the input, in the same
    order, and the record behind each of them is untouched. *)
Theorem C4_buy_side_passes_through (f : volumeFilter num) date ops so bo s out :
  fst (Apply IsSelling f date ops so bo s) = Ok out ->
  List.filter (isBuySide IsSelling (baseAsset f) (quoteAsset f) s) out =
    List.filter (isBuySide IsSelling (baseAsset f) (quoteAsset f) s) ops /\
  forall op, In op ops ->
    isBuySide IsSelling (baseAsset f) (quoteAsset f) s op = true ->
    In op out /\
    offers (snd (Apply IsSelling f date ops so bo s)) !! op = offers s !! op.
Proof.
  rewrite Apply_unfold.
  destruct (dailyVolumeByDateQuery f date) as [[otb|]|e]; try discriminate.
  rewrite orApplyError_Ok, orApplyError_snd.
  change (innerFn IsSelling f otb) with
    (fun op => volumeFilterFn IsSelling otb op (baseAsset f) (quoteAsset f)
                 (limitsOf (config f))).
  intros Hout.
  assert (Hstart : onlyAmountsChanged (passStart s date) (passStart s date))
    by apply onlyAmountsChanged_refl.
  pose proof (filterOps_keeps_buy_side (name f) otb (baseAsset f) (quoteAsset f)
    _ so bo ops (passStart s date) (passStart s date) out Hstart Hout) as Hfilter.
  assert (Hsame : forall l,
    isBuySide IsSelling (baseAsset f) (quoteAsset f) (passStart s date) l =
    isBuySide IsSelling (baseAsset f) (quoteAsset f) s l) by reflexivity.
  rewrite (filter_ext _ _ Hsame out), (filter_ext _ _ Hsame ops) in Hfilter.
  split; [exact Hfilter|].
  intros op Hin Hbuy. split.
  - assert (Hin' : In op (List.filter
      (isBuySide IsSelling (baseAsset f) (quoteAsset f) s) ops))
      by (apply filter_In; tauto).
    rewrite <- Hfilter in Hin'. apply filter_In in Hin'. tauto.
  - destruct (filterOps_frame (name f) otb (baseAsset f) (quoteAsset f)
      (limitsOf (config f)) so bo ops (passStart s date)) as [_ Hfr].
    rewrite Hfr; [reflexivity|]. right.
    unfold isBuySide in Hbuy. change (classify IsSelling (baseAsset f) (quoteAsset f)
      (passStart s date) op) with (classify IsSelling (baseAsset f) (quoteAsset f) s op).
    destruct (classify IsSelling (baseAsset f) (quoteAsset f) s op) as [[|]|];
      congruence.
Qed.


Lemma volumeFilterFn_parse_error otb op base quote lp s m b :
  offers s !! op = Some m ->
  IsSelling base quote (Selling m) (Buying m) = Ok b ->
  ParseFloat (Price m) = None \/ ParseFloat (Amount m) = None ->
  volumeFilterFn IsSelling otb op base quote lp s =
    (Err (match ParseFloat (Price m) with
          | None => ErrPrice (Price m)
          | Some _ => ErrAmount (Amount m)
          end), s).
Proof.
  intros Hm Hs Hparse.
  unfold volumeFilterFn, bind, load, isSellingOr, parseFloatOr, ret, fail.
  rewrite Hm, Hs.
  destruct (ParseFloat (Price m)); [|reflexivity].
  destruct Hparse as [Hp | Ha]; [discriminate|]. rewrite Ha. reflexivity.
Qed.

(** A sell-side operation whose price or amount does not parse makes the
    whole fold fail, wherever it stands in the batch. *)
Lemma filterOps_parse_failure fname otb base quote lp so bo ops op :
  forall s m,
    In op ops ->
    offers s !! op = Some m ->
    IsSelling base quote (Selling m) (Buying m) = Ok true ->
    ParseFloat (Price m) = None \/ ParseFloat (Amount m) = None ->
    exists e, fst (filterOps IsSelling fname base quote so bo ops
                     (fun op => volumeFilterFn IsSelling otb op base quote lp) s)
              = Err e.
Proof.
  induction ops as [|op0 ops IH]; intros s m Hin Hm Hsell Hparse; [destruct Hin|].
  assert (Hclop : classify IsSelling base quote s op = Some true)
    by (unfold classify; rewrite Hm, Hsell; reflexivity).
  destruct (classify IsSelling base quote s op0) as [[|]|] eqn:Hcl.
  - rewrite (filterOps_sell_side _ _ _ _ _ _ _ _ _ Hcl).
    destruct (decide (op0 = op)) as [->|Hne].
    + rewrite (volumeFilterFn_parse_error otb op base quote lp s m true Hm Hsell Hparse).
      eauto.
    + destruct Hin as [Heq | Hin]; [congruence|].
      destruct (volumeFilterFn_frame otb op0 base quote lp s) as [_ Hfr].
      destruct (volumeFilterFn IsSelling otb op0 base quote lp s) as [[newOp|e] s1];
        simpl in *; [|eauto].
      destruct (IH s1 m Hin) as [e He]; try assumption.
      { rewrite Hfr by congruence. exact Hm. }
      destruct (filterOps _ _ _ _ _ _ _ _ _) as [[k|e'] s']; simpl in *;
        [discriminate | eauto].
  - rewrite (filterOps_buy_side _ _ _ _ _ _ _ _ _ Hcl).
    destruct Hin as [Heq | Hin]; [congruence|].
    destruct (IH s m Hin Hm Hsell Hparse) as [e He].
    destruct (filterOps _ _ _ _ _ _ _ _ _) as [[k|e'] s']; simpl in *;
      [discriminate | eauto].
  - destruct (filterOps_unclassified fname _ _ so bo _ _ Hcl) as [e He].
    rewrite He. eauto.
Qed.

(** C8: [Apply] calls the volume query exactly once, whatever the batch;
    a failing query, a query result of another type, and a sell-side
    operation whose price or amount does not parse each make the whole
    call return an error, which carries no batch. *)
Theorem C8_one_query_and_errors_abort (f : volumeFilter num) date ops so bo s :
  let r := fst (Apply IsSelling f date ops so bo s) in
  let s' := snd (Apply IsSelling f date ops so bo s) in
  queryLog s' = (queryLog s ++ [date])%list /\
  (forall e, dailyVolumeByDateQuery f date = Err e -> r = Err (ErrQuery date e)) /\
  (dailyVolumeByDateQuery f date = Ok IsOtherType -> r = Err ErrQueryType) /\
  (forall op m, In op ops -> offers s !! op = Some m ->
     IsSelling (baseAsset f) (quoteAsset f) (Selling m) (Buying m) = Ok true ->
     ParseFloat (Price m) = None \/ ParseFloat (Amount m) = None ->
     exists e, r = Err e).
Proof.
  cbv zeta. rewrite Apply_unfold.
  change (innerFn IsSelling f) with
    (fun otb op => volumeFilterFn IsSelling otb op (baseAsset f) (quoteAsset f)
                     (limitsOf (config f))).
  destruct (dailyVolumeByDateQuery f date) as [[otb|]|e] eqn:Hq;
    simpl; repeat split; try congruence; eauto.
  - rewrite orApplyError_snd.
    destruct (filterOps_frame (name f) otb (baseAsset f) (quoteAsset f)
      (limitsOf (config f)) so bo ops (passStart s date)) as [[Hlog _] _].
    exact Hlog.
  - intros op m Hin Hm Hsell Hparse.
    destruct (filterOps_parse_failure (name f) otb (baseAsset f) (quoteAsset f)
      (limitsOf (config f)) so bo ops op (passStart s date) m Hin Hm Hsell Hparse)
      as [e He].
    unfold orApplyError.
    destruct (filterOps _ _ _ _ _ _ _ _ _) as [[k|e'] s']; simpl in *;
      [discriminate | eauto].
Qed.

(** ** The accumulator is the running sum of the admitted amounts *)




(** The fold over [pre ++ suf] is the fold over [pre] followed, from the
    state it leaves, by the fold over [suf]: the state "at a point" of a
    pass is the final state of the pass over the operations before it. *)
Lemma filterOps_app fname base quote so bo pre suf fn s :
  filterOps IsSelling fname base quote so bo (pre ++ suf) fn s =
    match filterOps IsSelling fname base quote so bo pre fn s with
    | (Ok k1, s1) =>
        match filterOps IsSelling fname base quote so bo suf fn s1 with
        | (Ok k2, s2) => (Ok (k1 ++ k2), s2)
        | (Err e, s2) => (Err e, s2)
        end
    | (Err e, s1) => (Err e, s1)
    end.
Proof.
  revert s. induction pre as [|op pre IH]; intros s.
  - simpl. unfold ret.
    destruct (filterOps _ _ _ _ _ _ _ _ _) as [[k|e] s']; reflexivity.
  - change ((op :: pre) ++ suf) with (op :: (pre ++ suf)).
    destruct (classify IsSelling base quote s op) as [[|]|] eqn:Hcl.
    + rewrite !(filterOps_sell_side _ _ _ _ _ _ _ _ _ Hcl).
      destruct (fn op s) as [[newOp|e] s1]; [|reflexivity].
      rewrite IH.
      destruct (filterOps _ _ _ _ _ _ pre _ _) as [[k1|e] s2]; [|reflexivity].
      destruct (filterOps _ _ _ _ _ _ suf _ _) as [[k2|e] s3]; [|reflexivity].
      destruct newOp; reflexivity.
    + rewrite !(filterOps_buy_side _ _ _ _ _ _ _ _ _ Hcl). rewrite IH.
      destruct (filterOps _ _ _ _ _ _ pre _ _) as [[k1|e] s2]; [|reflexivity].
      destruct (filterOps _ _ _ _ _ _ suf _ _) as [[k2|e] s3]; reflexivity.
    + destruct (filterOps_unclassified fname _ _ so bo _ _ Hcl) as [e He].
      rewrite !He. reflexivity.
Qed.

End OnePass.

(* ===================================================================== *)
(** * 10. Theorems: the caps, in exact arithmetic                         *)
(* ===================================================================== *)

Section ExactArithmetic.
Variable IsSelling : Asset -> Asset -> Asset -> Asset -> result bool.

Local Open Scope Q_scope.

Implicit Types (s : state Q) (op l : loc) (lp : limitParameters Q)
  (otb : DailyVolume Q) (ops : list loc).







End ExactArithmetic.

(* ===================================================================== *)
(** * 11. The scenarios of the specification, and concrete runs           *)
(* ===================================================================== *)

(** Scenario A: OTB base 80, cap 100, exact mode, one sell of 30 at 10: the
    operation is kept with amount 20.0000000. *)
Example scenario_A :
  let run := firstCall (volume64 "80" "800")
               (exampleLimits (Some (f64 "100")) None volumeFilterModeExact)
               [sellOp "30" "10"] in
  fst run = Ok (Some 1%positive) /\
  amountAt (snd run) 1%positive = Some "20.0000000" /\
  dailyTbbSellBase (snd run) = f64 "20".
Proof. vm_compute. repeat split. Qed.

(** Scenario C: two sells of 10 then a third, cap 15, exact mode: the first
    is kept at 10, the second trimmed to 5, the third dropped. *)
Example scenario_C :
  let run := applyTo (exampleFilter (Some (f64 "15")) None volumeFilterModeExact
                        (dailyVolume (f64 "0") (f64 "0")))
               [sellOp "10" "1"; sellOp "10" "1"; sellOp "10" "1"] in
  fst run = Ok [1%positive; 2%positive] /\
  amountAt (snd run) 1%positive = Some "10" /\
  amountAt (snd run) 2%positive = Some "5.0000000" /\
  dailyTbbSellBase (snd run) = f64 "15".
Proof. vm_compute. repeat split. Qed.

(** Scenario D: quote cap 500, OTB quote 450, a sell of 10 at 10 is trimmed
    to 5. *)
Example scenario_D :
  let run := firstCall (volume64 "0" "450")
               (exampleLimits None (Some (f64 "500")) volumeFilterModeExact)
               [sellOp "10" "10"] in
  fst run = Ok (Some 1%positive) /\
  amountAt (snd run) 1%positive = Some "5.0000000" /\
  dailyTbbSellQuote (snd run) = f64 "50".
Proof. vm_compute. repeat split. Qed.

(** C2, at a failing input: exact mode, base cap 100, OTB base 99.99999999,
    a sell of 1.  The projected total is over the cap and the headroom
    100 - 99.99999999 - 0 is positive, so the operation is trimmed and
    returned; but the headroom is below 0.00000005, and the amount text the
    operation is rewritten to, the headroom to 7 fractional digits, is
    0.0000000: a zero amount. *)
Theorem C2_exact_mode_rewrites_to_zero_amount :
  let otb := volume64 "99.99999999" "0" in
  let cap := f64 "100" in
  let run := firstCall otb (exampleLimits (Some cap) None volumeFilterModeExact)
               [sellOp "1" "10"] in
  nleb (nadd (nadd (BaseVol otb) nzero) (f64 "1")) cap = false /\
  ngtb (nsub (nsub cap (BaseVol otb)) nzero) nzero = true /\
  fst run = Ok (Some 1%positive) /\
  amountAt (snd run) 1%positive = Some "0.0000000" /\
  ParseFloat64 "0.0000000" = Some (S754_zero false).
Proof. vm_compute. repeat split. Qed.



(** ** The theorems above, applied to concrete calls *)

Lemma sellCall_first (amount price : string) (rest : list ManageSellOffer) :
  forall p a : float64,
    ParseFloat64 price = Some p -> ParseFloat64 amount = Some a ->
    sellCall IsSellingPair (initState (sellOp amount price :: rest)) 1%positive
      XLM USD p a.
Proof.
  intros p a Hp Ha. exists (sellOp amount price).
  split; [unfold initState, heapOf; simpl; apply lookup_insert_eq|].
  split; [reflexivity|]. split; assumption.
Qed.

(** Scenario B: ignore mode, OTB base 80, cap 100, a sell of 30: dropped,
    nothing rewritten, the accumulator untouched. *)
Lemma C7_ignore_mode_drops_without_rewrite_witness :
  firstCall (volume64 "80" "800")
    (exampleLimits (Some (f64 "100")) None volumeFilterModeIgnore)
    [sellOp "30" "10"]
  = (Ok None, initState [sellOp "30" "10"]).
Proof.
  apply (C7_ignore_mode_drops_without_rewrite IsSellingPair (volume64 "80" "800")
           1%positive XLM USD
           (exampleLimits (Some (f64 "100")) None volumeFilterModeIgnore)
           (initState [sellOp "30" "10"]) (f64 "10") (f64 "30")).
  - reflexivity.
  - apply sellCall_first; reflexivity.
  - left. exists (f64 "100"). split; [reflexivity | vm_compute; reflexivity].
Defined.

(** Base headroom 20, but the quote volume on the books (600) is already
    over the quote cap (500): the operation is dropped, and its amount text
    is left at 20.0000000. *)
Lemma C10_dropped_operation_keeps_rewritten_amount_witness :
  let run := firstCall (volume64 "80" "600")
               (exampleLimits (Some (f64 "100")) (Some (f64 "500")) volumeFilterModeExact)
               [sellOp "30" "10"] in
  fst run = Ok None /\
  amountAt (initState (num := float64) [sellOp "30" "10"]) 1%positive = Some "30" /\
  amountAt (snd run) 1%positive = Some "20.0000000" /\
  dailyTbbSellBase (snd run) = nzero.
Proof.
  destruct (C10_dropped_operation_keeps_rewritten_amount IsSellingPair
              (volume64 "80" "600") 1%positive XLM USD
              (exampleLimits (Some (f64 "100")) (Some (f64 "500")) volumeFilterModeExact)
              (initState [sellOp "30" "10"]) (f64 "10") (f64 "30")
              (f64 "100") (f64 "500"))
    as (Hrun & Hamount & _).
  - reflexivity.
  - reflexivity.
  - reflexivity.
  - apply sellCall_first; reflexivity.
  - vm_compute; reflexivity.
  - vm_compute; reflexivity.
  - vm_compute; reflexivity.
  - vm_compute; reflexivity.
  - cbv zeta. unfold firstCall. rewrite Hrun. vm_compute. repeat split.
Defined.

(** Base cap 100 with 80 on the books, quote cap 250: the base check trims
    the sell of 30 to 20, and the quote check, run on 20, passes (200 <=
    250); it would not pass on the original 30. *)
Lemma C5_quote_check_runs_on_amount_of_base_check_witness :
  let run := firstCall (volume64 "80" "0")
               (exampleLimits (Some (f64 "100")) (Some (f64 "250")) volumeFilterModeExact)
               [sellOp "30" "10"] in
  fst run = Ok (Some 1%positive) /\
  amountAt (snd run) 1%positive = Some "20.0000000" /\
  dailyTbbSellQuote (snd run) = f64 "200".
Proof.
  destruct (C5_quote_check_runs_on_amount_of_base_check IsSellingPair
              (volume64 "80" "0") 1%positive XLM USD
              (exampleLimits (Some (f64 "100")) (Some (f64 "250")) volumeFilterModeExact)
              (initState [sellOp "30" "10"]) (f64 "10") (f64 "30")
              (f64 "100") (f64 "250"))
    as (Hrun & _).
  - reflexivity.
  - reflexivity.
  - apply sellCall_first; reflexivity.
  - cbv zeta. unfold firstCall. rewrite Hrun. vm_compute. repeat split.
Defined.

(** On the same call the two checks taken independently disagree with the
    code: the quote check on the original amount 30 would trim to 25. *)
Example checks_are_not_independent :
  let otb := volume64 "80" "0" in
  let lp := exampleLimits (Some (f64 "100")) (Some (f64 "250")) volumeFilterModeExact in
  finalAmount (specStep lp otb nzero nzero (f64 "10") (f64 "30")) = f64 "20" /\
  finalAmount (independentStep lp otb nzero nzero (f64 "10") (f64 "30")) = f64 "25" /\
  dailyTbbSellBase (snd (firstCall otb lp [sellOp "30" "10"])) = f64 "20".
Proof. vm_compute. repeat split. Qed.


(** Scenario E: a buy-side operation in the batch comes out as it went in,
    next to a sell that is trimmed. *)
Lemma C4_buy_side_passes_through_witness :
  let f := exampleFilter None (Some (f64 "500")) volumeFilterModeExact
             (dailyVolume (f64 "0") (f64 "450")) in
  let s0 : state float64 := initState [sellOp "10" "10"; buyOp "7" "0.1"] in
  let run := Apply IsSellingPair f "2020-01-01" [1%positive; 2%positive] [] [] s0 in
  isBuySide IsSellingPair XLM USD s0 2%positive = true /\
  fst run = Ok [1%positive; 2%positive] /\
  offers (snd run) !! 2%positive = Some (buyOp "7" "0.1") /\
  amountAt (snd run) 1%positive = Some "5.0000000".
Proof.
  cbv zeta.
  destruct (C4_buy_side_passes_through IsSellingPair
              (exampleFilter None (Some (f64 "500")) volumeFilterModeExact
                 (dailyVolume (f64 "0") (f64 "450")))
              "2020-01-01" [1%positive; 2%positive] [] []
              (initState [sellOp "10" "10"; buyOp "7" "0.1"])
              [1%positive; 2%positive])
    as (Hfilter & Hop).
  - vm_compute. reflexivity.
  - destruct (Hop 2%positive) as (_ & Hsame).
    + vm_compute. tauto.
    + vm_compute. reflexivity.
    + split; [vm_compute; reflexivity|].
      split; [vm_compute; reflexivity|].
      split; [|vm_compute; reflexivity].
      etransitivity; [exact Hsame | vm_compute; reflexivity].
Defined.


(** Why the prices are taken positive: at a negative price the trim of the
    quote check exceeds the amount it replaces.  Base cap 100, quote cap
    -500, a sell of 1 at -1 is rewritten to 500 and kept. *)
Example negative_price_breaks_base_cap :
  let f := exampleFilter (Some (f64 "100")) (Some (f64 "-500")) volumeFilterModeExact
             (dailyVolume (f64 "0") (f64 "0")) in
  let run := applyTo f [sellOp "1" "-1"] in
  fst run = Ok [1%positive] /\
  amountAt (snd run) 1%positive = Some "500.0000000" /\
  nleb (dailyTbbSellBase (snd run)) (f64 "100") = false.
Proof. vm_compute. repeat split. Qed.

(** Why the arithmetic is read exactly: in binary64 the sum the check
    forms, (OTB + TBB) + amount, and the sum the accumulator holds
    afterwards, OTB + (TBB + amount), can round differently.  Cap 0.6, OTB
    0.3, sells of 0.2 and 0.1: both are kept untouched, and OTB + TBB comes
    out one unit in the last place above the cap. *)
Example binary64_sum_exceeds_cap_by_rounding :
  let f := exampleFilter (Some (f64 "0.6")) None volumeFilterModeExact
             (dailyVolume (f64 "0.3") (f64 "0")) in
  let run := applyTo f [sellOp "0.2" "1"; sellOp "0.1" "1"] in
  fst run = Ok [1%positive; 2%positive] /\
  amountAt (snd run) 1%positive = Some "0.2" /\
  amountAt (snd run) 2%positive = Some "0.1" /\
  nleb (nadd (f64 "0.3") (dailyTbbSellBase (snd run))) (f64 "0.6") = false.
Proof. vm_compute. repeat split. Qed.

(** Why the operations are taken distinct: when a pointer stands twice in
    the batch, the second visit rewrites the amount the first one was
    admitted with.  Cap 15, one sell of 10 passed twice: both entries of
    the output show 5.0000000, while TBB is 10 + 5. *)
Example repeated_pointer_loses_first_amount :
  let f := exampleFilter (Some (f64 "15")) None volumeFilterModeExact
             (dailyVolume (f64 "0") (f64 "0")) in
  let run := Apply IsSellingPair f "2020-01-01" [1%positive; 1%positive] [] []
               (initState [sellOp "10" "1"]) in
  fst run = Ok [1%positive; 1%positive] /\
  amountAt (snd run) 1%positive = Some "5.0000000" /\
  dailyTbbSellBase (snd run) = f64 "15".
Proof. vm_compute. repeat split. Qed.

(** A run of [Apply] whose second operation has an amount that is not a
    number: one query, an error, no batch. *)
Example apply_aborts_on_unparsable_amount :
  let f := exampleFilter (Some (f64 "100")) None volumeFilterModeExact
             (dailyVolume (f64 "0") (f64 "0")) in
  let run := applyTo f [sellOp "10" "1"; sellOp "ten" "1"; sellOp "10" "1"] in
  fst run = Err (ErrApplyFilter (ErrAmount "ten")) /\
  queryLog (snd run) = ["2020-01-01"].
Proof. vm_compute. repeat split. Qed.

(* ===================================================================== *)
(** * 12. Exact mode against a single cap                                 *)
(* ===================================================================== *)

Section ExactModeSingleCap.
Context {num : Type} `{Number num}.
Variable IsSelling : Asset -> Asset -> Asset -> Asset -> result bool.

Implicit Types (s : state num) (op : loc) (lp : limitParameters num)
    (otb : DailyVolume num).



End ExactModeSingleCap.

(** In exact arithmetic the accumulator does not decrease when the
    operation's own amount is non-negative (base cell) and its price is
    non-negative too (quote cell). *)
Lemma accumulator_nondecreasing_exact
    (IsSelling : Asset -> Asset -> Asset -> Asset -> result bool)
    (otb : DailyVolume Q) (op : loc) (base quote : Asset)
    (lp : limitParameters Q) (s : state Q) :
  (forall m a, offers s !! op = Some m -> ParseFloatQ (Amount m) = Some a ->
     (0 <= a)%Q) ->
  (forall m p, offers s !! op = Some m -> ParseFloatQ (Price m) = Some p ->
     (0 <= p)%Q) ->
  let s' := snd (volumeFilterFn IsSelling otb op base quote lp s) in
  (dailyTbbSellBase s <= dailyTbbSellBase s')%Q /\
  (dailyTbbSellQuote s <= dailyTbbSellQuote s')%Q.
Proof.
  intros Ha Hp. cbv zeta.
  assert (Hnn : forall x : Q, nonneg x = true -> (0 <= x)%Q).
  { intros x. unfold nonneg; simpl. intros E. apply orb_true_iff in E.
    destruct E as [E | E].
    - apply Qle_bool_iff. exact E.
    - apply Qlt_le_weak, Qnot_le_lt. intros Hle. apply Qle_bool_iff in Hle.
      rewrite Hle in E. discriminate. }
  destruct (volumeFilterFn_outcome IsSelling otb op base quote lp s)
    as [(p & a & Hc) | (E & _)]; [|rewrite E; split; apply Qle_refl].
  rewrite (volumeFilterFn_sell IsSelling otb op base quote lp s p a Hc). cbv zeta.
  pose proof (specStep_finalAmount_nonneg lp otb (dailyTbbSellBase s)
                (dailyTbbSellQuote s) p a) as Hfin.
  set (o := specStep _ _ _ _ _ _) in *.
  destruct Hc as (m & Hm & _ & Hpm & Ham).
  unfold stateAfter; cbn [snd dailyTbbSellBase dailyTbbSellQuote].
  destruct (kept o); [|split; apply Qle_refl].
  assert (Hn : (0 <= finalAmount o)%Q).
  { apply Hnn, Hfin. unfold nonneg; simpl. apply orb_true_iff. left.
    apply Qle_bool_iff. exact (Ha m a Hm Ham). }
  pose proof (Qmult_le_0_compat _ _ Hn (Hp m p Hm Hpm)) as Hmul.
  change (@nadd Q Q_Number) with Qplus. change (@nmul Q Q_Number) with Qmult.
  split; lra.
Qed.

(* ===================================================================== *)
(** * 13. Further properties: package orderbook and the filter mode       *)
(* ===================================================================== *)

Lemma OrderActionFromString_not_sell (s : string) :
  s <> "sell" -> OrderActionFromString s = ActionBuy.
Proof.
  intros Hs. destruct (string_dec s "buy") as [-> | Hb]; [reflexivity|].
  apply go_index_absent, orderActionMap_absent.
  unfold recognizedAction. tauto.
Qed.

Lemma OrderTypeFromString_not_limit (s : string) :
  s <> "limit" -> OrderTypeFromString s = TypeMarket.
Proof.
  intros Hs. destruct (string_dec s "market") as [-> | Hb]; [reflexivity|].
  apply go_index_absent, orderTypeMap_absent.
  unfold recognizedType. tauto.
Qed.

(** X1: "sell" is the only string that parses to [ActionSell] and "limit"
    the only one that parses to [TypeLimit]; every other string, recognized
    or not, parses to [ActionBuy], respectively [TypeMarket].  So
    [OrderTypeFromString] never returns a value outside the two declared
    ones. *)
Theorem X1_only_sell_and_limit_parse_to_nonzero (s : string) :
  (OrderActionFromString s = ActionSell <-> s = "sell") /\
  (OrderTypeFromString s = TypeLimit <-> s = "limit") /\
  validOrderType (OrderTypeFromString s).
Proof.
  split; [|split].
  - split; [|intros ->; reflexivity].
    intros E. destruct (string_dec s "sell") as [-> | Hs]; [reflexivity|].
    rewrite (OrderActionFromString_not_sell s Hs) in E. discriminate E.
  - split; [|intros ->; reflexivity].
    intros E. destruct (string_dec s "limit") as [-> | Hs]; [reflexivity|].
    rewrite (OrderTypeFromString_not_limit s Hs) in E. discriminate E.
  - destruct (string_dec s "limit") as [-> | Hs].
    + right. reflexivity.
    + left. apply OrderTypeFromString_not_limit, Hs.
Qed.

(** X2: the round trip through [String] and [OrderTypeFromString] holds
    for the two declared order types and for no other value: any other
    [OrderType] prints as the error text, which parses to [TypeMarket]. *)
Theorem X2_order_type_roundtrip_only_for_declared (o : OrderType) :
  OrderTypeFromString (OrderType_String o) = o <-> validOrderType o.
Proof.
  split.
  - intros E. unfold OrderType_String in E. unfold validOrderType.
    destruct (Z.eqb_spec o TypeMarket) as [Em | Hm]; [left; exact Em|].
    destruct (Z.eqb_spec o TypeLimit) as [El | Hl]; [right; exact El|].
    left. rewrite <- E. reflexivity.
  - intros [-> | ->]; reflexivity.
Qed.

(** X3: [String] agrees with the predicates.  An [OrderAction] is a buy or
    a sell and never both, it prints as "buy" exactly when [IsBuy] and as
    "sell" exactly when [IsSell], so the error text of [OrderAction.String]
    is never returned.  An [OrderType] prints as the error text exactly
    when it is neither a market nor a limit order, and is never both. *)
Theorem X3_String_agrees_with_predicates (a : OrderAction) (o : OrderType) :
  OrderAction_IsBuy a = negb (OrderAction_IsSell a) /\
  (OrderAction_String a = "buy" <-> OrderAction_IsBuy a = true) /\
  (OrderAction_String a = "sell" <-> OrderAction_IsSell a = true) /\
  OrderAction_String a <> "error, unrecognized order action" /\
  (OrderType_String o = "market" <-> OrderType_IsMarket o = true) /\
  (OrderType_String o = "limit" <-> OrderType_IsLimit o = true) /\
  (OrderType_String o = "error, unrecognized order type" <->
     OrderType_IsMarket o = false /\ OrderType_IsLimit o = false) /\
  OrderType_IsMarket o && OrderType_IsLimit o = false.
Proof.
  split; [destruct a; reflexivity|].
  split; [destruct a; vm_compute; split; congruence|].
  split; [destruct a; vm_compute; split; congruence|].
  split; [destruct a; vm_compute; congruence|].
  unfold OrderType_String, OrderType_IsMarket, OrderType_IsLimit.
  destruct (Z.eqb_spec o TypeMarket) as [Em | Hm];
    destruct (Z.eqb_spec o TypeLimit) as [El | Hl]; simpl.
  - exfalso. unfold TypeMarket, TypeLimit in *. lia.
  - repeat split; try congruence; try (intros [? ?]; congruence).
  - repeat split; try congruence; try (intros [? ?]; congruence).
  - repeat split; congruence.
Qed.

(** X4: [parseVolumeFilterMode] accepts exactly the two strings "exact"
    and "ignore" and then returns the mode that is that string; on every
    other input it returns an error together with the mode exact. *)
Theorem X4_parseVolumeFilterMode_accepts_two_strings (m : string) :
  (snd (parseVolumeFilterMode m) = None <->
     m = volumeFilterModeExact \/ m = volumeFilterModeIgnore) /\
  (snd (parseVolumeFilterMode m) = None -> fst (parseVolumeFilterMode m) = m) /\
  (snd (parseVolumeFilterMode m) <> None ->
     fst (parseVolumeFilterMode m) = volumeFilterModeExact).
Proof.
  unfold parseVolumeFilterMode.
  destruct (String.eqb_spec m volumeFilterModeExact) as [-> | He]; simpl.
  - repeat split; try tauto; congruence.
  - destruct (String.eqb_spec m volumeFilterModeIgnore) as [-> | Hi]; simpl.
    + repeat split; try tauto; congruence.
    + repeat split; try tauto; try congruence; try (intros [? | ?]; congruence).
Qed.

(* ===================================================================== *)
(** * 14. Further properties: one call of [volumeFilterFn]                *)
(* ===================================================================== *)

Section OneCallFurther.
Context {num : Type} `{Number num}.
Variable IsSelling : Asset -> Asset -> Asset -> Asset -> result bool.

Implicit Types (s : state num) (op l : loc) (m : ManageSellOffer)
  (lp : limitParameters num) (otb : DailyVolume num).

(** X5: the three fallible steps of a call come before the test for a
    sell, in the order classification, price, amount.  So a failing
    classification is reported whatever the texts are, a price that is not
    a number is reported for a buy-side operation as well and before an
    amount that is not a number; each error leaves the state untouched. *)
Theorem X5_errors_come_first_and_in_order otb op base quote lp s m :
  offers s !! op = Some m ->
  (forall e, IsSelling base quote (Selling m) (Buying m) = Err e ->
     volumeFilterFn IsSelling otb op base quote lp s = (Err (ErrIsSelling e), s)) /\
  (forall b, IsSelling base quote (Selling m) (Buying m) = Ok b ->
     ParseFloat (Price m) = None ->
     volumeFilterFn IsSelling otb op base quote lp s = (Err (ErrPrice (Price m)), s)) /\
  (forall b p, IsSelling base quote (Selling m) (Buying m) = Ok b ->
     ParseFloat (Price m) = Some p -> ParseFloat (Amount m) = None ->
     volumeFilterFn IsSelling otb op base quote lp s = (Err (ErrAmount (Amount m)), s)).
Proof.
  intros Hm.
  unfold volumeFilterFn, bind, load, isSellingOr, parseFloatOr, ret, fail.
  rewrite Hm. repeat split.
  - intros e ->. reflexivity.
  - intros b -> ->. reflexivity.
  - intros b p -> -> ->. reflexivity.
Qed.

(** X6: a call never touches another operation, never changes the assets,
    the price or the offer id of its own operation (only its amount text
    can change), never adds or removes a pointer, and makes no query. *)
Theorem X6_call_changes_only_the_amount_of_its_operation otb op base quote lp s :
  let s' := snd (volumeFilterFn IsSelling otb op base quote lp s) in
  queryLog s' = queryLog s /\
  (forall l, l <> op -> offers s' !! l = offers s !! l) /\
  (forall m, offers s !! op = Some m ->
     exists a, offers s' !! op = Some (withAmount m a)) /\
  (offers s !! op = None -> s' = s).
Proof.
  cbv zeta.
  destruct (volumeFilterFn_outcome IsSelling otb op base quote lp s)
    as [(p & a & Hc) | (E & _)].
  - rewrite (volumeFilterFn_sell IsSelling otb op base quote lp s p a Hc). cbv zeta.
    set (o := specStep _ _ _ _ _ _).
    destruct Hc as (m & Hm & _). unfold stateAfter; cbn [snd offers queryLog].
    rewrite Hm. split; [reflexivity|].
    destruct (lastRewrite o) as [t|].
    + split; [intros l Hne; apply lookup_insert_ne; congruence|].
      split; [|congruence].
      intros m' Hm'. exists (Sprintf7 t). rewrite lookup_insert_eq. congruence.
    + split; [reflexivity|]. split; [|congruence].
      intros m' Hm'. exists (Amount m'). rewrite withAmount_same.
      rewrite Hm. exact Hm'.
  - rewrite E. split; [reflexivity|]. split; [reflexivity|].
    split; [|reflexivity].
    intros m Hm. exists (Amount m). rewrite withAmount_same. exact Hm.
Qed.

(** X7: only the mode "exact" rewrites.  With any other mode string,
    "ignore" or not, a call leaves every operation as it was. *)
Theorem X7_no_rewrite_unless_exact otb op base quote lp s :
  lp_mode lp <> volumeFilterModeExact ->
  offers (snd (volumeFilterFn IsSelling otb op base quote lp s)) = offers s.
Proof.
  intros Hmode. apply String.eqb_neq in Hmode.
  destruct (volumeFilterFn_outcome IsSelling otb op base quote lp s)
    as [(p & a & Hc) | (E & _)]; [|rewrite E; reflexivity].
  rewrite (volumeFilterFn_sell IsSelling otb op base quote lp s p a Hc). cbv zeta.
  unfold stateAfter, lastRewrite, specStep, whenConfigured, specBaseCheck,
    specQuoteCheck; cbn [snd offers trimBase trimQuote]. rewrite Hmode.
  destruct (sellBaseAssetCapInBaseUnits lp), (sellBaseAssetCapInQuoteUnits lp); simpl.
  all: repeat match goal with
       | |- context [if ?c then _ else _] => destruct c; simpl
       end; reflexivity.
Qed.

(** X8: a filter whose configuration [Validate] rejects (no cap set)
    filters nothing: its [innerFn] returns every sell-side operation as it
    is and books its full amount. *)
Theorem X8_rejected_config_admits_every_sell (f : volumeFilter num)
    otb op s price amount :
  Validate (config f) <> None ->
  sellCall IsSelling s op (baseAsset f) (quoteAsset f) price amount ->
  innerFn IsSelling f otb op s = (Ok (Some op), booked s amount price).
Proof.
  intros Hv Hc. unfold innerFn.
  rewrite (volumeFilterFn_sell IsSelling otb op (baseAsset f) (quoteAsset f) _ s
             price amount Hc).
  unfold Validate, isEmpty in Hv.
  unfold specStep, whenConfigured, stateAfter, kept, lastRewrite, booked; simpl.
  destruct (SellBaseAssetCapInBaseUnits (config f)); [congruence|].
  destruct (SellBaseAssetCapInQuoteUnits (config f)); [congruence|].
  reflexivity.
Qed.

End OneCallFurther.

(* ===================================================================== *)
(** * 15. Further properties: the caps, in exact arithmetic               *)
(* ===================================================================== *)

Section ExactFurther.
Variable IsSelling : Asset -> Asset -> Asset -> Asset -> result bool.

Local Open Scope Q_scope.

Implicit Types (s : state Q) (op l : loc) (lp : limitParameters Q)
  (otb : DailyVolume Q).











End ExactFurther.

(* ===================================================================== *)
(** * 16. Further properties: construction of the filter                  *)
(* ===================================================================== *)

Section MakeFilterVolumeProperties.
Context {num : Type} `{Number num}.
Variable IsSelling : Asset -> Asset -> Asset -> Asset -> result bool.
Variable DB : Type.
Variable MakeMarketID : string -> string -> string -> string.
Variable Dedupe : list string -> list string.
Variable MakeQuery :
  DB -> list string -> string -> list string ->
  result (string -> result (queryResult num)).

(** [makeFilterVolume] fails at its first failing step and looks at
    nothing else.  A base asset without display name gives the base error
    whatever the quote asset is; then the quote asset; then the query
    constructor, called on the deduplicated list of the pair's market id
    followed by the additional ids, the action "sell" and the account ids.
    When all three succeed the filter is built, for every setting of the
    caps and the mode, and it holds the configuration and the two assets
    it was given. *)
Lemma makeFilterVolume_fails_at_first_failing_step
    (cv exchangeName : string) (tradingPair : TradingPair)
    (assetDisplayFn : string -> result string) (bAsset qAsset : Asset)
    (db : DB) (cfg : VolumeFilterConfig num) :
  let made := makeFilterVolume DB MakeMarketID Dedupe MakeQuery cv
                exchangeName tradingPair assetDisplayFn bAsset qAsset db cfg in
  (forall e, assetDisplayFn (Base tradingPair) = Err e ->
     made = inl (ErrBaseAssetDisplay (Base tradingPair) e)) /\
  (forall b e, assetDisplayFn (Base tradingPair) = Ok b ->
     assetDisplayFn (Quote tradingPair) = Err e ->
     made = inl (ErrQuoteAssetDisplay (Quote tradingPair) e)) /\
  (forall b q e, assetDisplayFn (Base tradingPair) = Ok b ->
     assetDisplayFn (Quote tradingPair) = Ok q ->
     MakeQuery db (Dedupe (MakeMarketID exchangeName b q :: additionalMarketIDs cfg))
       "sell" (optionalAccountIDs cfg) = Err e ->
     made = inl (ErrMakeQuery e)) /\
  ((exists f, made = inr f) <->
   exists b q query,
     assetDisplayFn (Base tradingPair) = Ok b /\
     assetDisplayFn (Quote tradingPair) = Ok q /\
     MakeQuery db (Dedupe (MakeMarketID exchangeName b q :: additionalMarketIDs cfg))
       "sell" (optionalAccountIDs cfg) = Ok query) /\
  (forall f, made = inr f ->
     config f = cfg /\ baseAsset f = bAsset /\
     quoteAsset f = qAsset /\ configValue f = cv).
Proof.
  cbv zeta. unfold makeFilterVolume.
  destruct (assetDisplayFn (Base tradingPair)) as [b|eb].
  2: { split; [intros e [= <-]; reflexivity|].
       split; [intros b e Hb; discriminate Hb|].
       split; [intros b q e Hb; discriminate Hb|].
       split; [|intros f Hf; discriminate Hf].
       split; [intros (f & Hf); discriminate Hf|].
       intros (b & q & query & Hb & _). discriminate Hb. }
  destruct (assetDisplayFn (Quote tradingPair)) as [q|eq'].
  2: { split; [intros e He; discriminate He|].
       split; [intros b' e _ [= <-]; reflexivity|].
       split; [intros b' q e _ Hq; discriminate Hq|].
       split; [|intros f Hf; discriminate Hf].
       split; [intros (f & Hf); discriminate Hf|].
       intros (b' & q & query & _ & Hq & _). discriminate Hq. }
  simpl.
  destruct (MakeQuery db _ "sell" (optionalAccountIDs cfg)) as [query|e] eqn:Hmk.
  - split; [intros e He; discriminate He|].
    split; [intros b' e _ He; discriminate He|].
    split; [intros b' q' e [= <-] [= <-] He; rewrite Hmk in He; discriminate He|].
    split; [|intros f [= <-]; repeat split].
    split; [|intros _; eexists; reflexivity].
    intros _. exists b, q, query. repeat split. exact Hmk.
  - split; [intros e' He; discriminate He|].
    split; [intros b' e' _ He; discriminate He|].
    split; [intros b' q' e' [= <-] [= <-] He; rewrite Hmk in He; congruence|].
    split; [|intros f Hf; discriminate Hf].
    split; [intros (f & Hf); discriminate Hf|].
    intros (b' & q' & query & [= <-] & [= <-] & Hq). rewrite Hmk in Hq.
    discriminate Hq.
Qed.

(** X14: construction does not validate the configuration.  A
    configuration that [Validate] rejects is accepted by
    [makeFilterVolume], and the filter it builds lets every sell-side
    operation through as it is. *)
Theorem X14_unvalidated_config_builds_a_filter_that_admits_all
    (cv exchangeName : string) (tradingPair : TradingPair)
    (assetDisplayFn : string -> result string) (bAsset qAsset : Asset)
    (db : DB) (cfg : VolumeFilterConfig num) b q query
    (otb : DailyVolume num) (op : loc) (s : state num) (price amount : num) :
  Validate cfg <> None ->
  assetDisplayFn (Base tradingPair) = Ok b ->
  assetDisplayFn (Quote tradingPair) = Ok q ->
  MakeQuery db (Dedupe (MakeMarketID exchangeName b q :: additionalMarketIDs cfg))
    "sell" (optionalAccountIDs cfg) = Ok query ->
  sellCall IsSelling s op bAsset qAsset price amount ->
  exists f,
    makeFilterVolume DB MakeMarketID Dedupe MakeQuery cv exchangeName
      tradingPair assetDisplayFn bAsset qAsset db cfg = inr f /\
    innerFn IsSelling f otb op s = (Ok (Some op), booked s amount price).
Proof.
  intros Hv Hb Hq Hmk Hc. unfold makeFilterVolume. rewrite Hb, Hq. simpl.
  rewrite Hmk. eexists. split; [reflexivity|].
  unfold innerFn; simpl.
  rewrite (volumeFilterFn_sell IsSelling otb op bAsset qAsset _ s
             price amount Hc).
  unfold Validate, isEmpty in Hv.
  unfold specStep, whenConfigured, stateAfter, kept, lastRewrite, booked; simpl.
  destruct (SellBaseAssetCapInBaseUnits cfg); [congruence|].
  destruct (SellBaseAssetCapInQuoteUnits cfg); [congruence|].
  reflexivity.
Qed.

End MakeFilterVolumeProperties.

(* ===================================================================== *)
(** * 17. The further properties on concrete calls                        *)
(* ===================================================================== *)


(** A buy-side operation whose price and amount are both not numbers: the
    call fails on the price. *)
Lemma X5_errors_come_first_and_in_order_witness :
  firstCall (volume64 "0" "0")
    (exampleLimits (Some (f64 "100")) None volumeFilterModeExact)
    [buyOp "xyz" "abc"]
  = (Err (ErrPrice "abc"), initState [buyOp "xyz" "abc"]).
Proof.
  destruct (X5_errors_come_first_and_in_order IsSellingPair (volume64 "0" "0")
              1%positive XLM USD
              (exampleLimits (Some (f64 "100")) None volumeFilterModeExact)
              (initState [buyOp "xyz" "abc"]) (buyOp "xyz" "abc"))
    as (_ & Hprice & _).
  - vm_compute. reflexivity.
  - apply (Hprice false); reflexivity.
Defined.

(** Ignore mode over the cap: the operations are as they were. *)
Lemma X7_no_rewrite_unless_exact_witness :
  offers (snd (firstCall (volume64 "80" "800")
                 (exampleLimits (Some (f64 "100")) (Some (f64 "900"))
                    volumeFilterModeIgnore)
                 [sellOp "30" "10"]))
  = offers (initState (num := float64) [sellOp "30" "10"]).
Proof.
  apply (X7_no_rewrite_unless_exact IsSellingPair (volume64 "80" "800") 1%positive
           XLM USD
           (exampleLimits (Some (f64 "100")) (Some (f64 "900")) volumeFilterModeIgnore)
           (initState [sellOp "30" "10"])).
  intros E. discriminate E.
Defined.

(** No cap set: a sell of 30 with 80 on the books goes through whole. *)
Lemma X8_rejected_config_admits_every_sell_witness :
  innerFn IsSellingPair
    (exampleFilter None None volumeFilterModeExact (dailyVolume (f64 "80") (f64 "800")))
    (volume64 "80" "800") 1%positive (initState [sellOp "30" "10"])
  = (Ok (Some 1%positive), booked (initState [sellOp "30" "10"]) (f64 "30") (f64 "10")).
Proof.
  apply (X8_rejected_config_admits_every_sell IsSellingPair
           (exampleFilter None None volumeFilterModeExact
              (dailyVolume (f64 "80") (f64 "800")))
           (volume64 "80" "800") 1%positive (initState [sellOp "30" "10"])
           (f64 "10") (f64 "30")).
  - intros E. discriminate E.
  - apply sellCall_first; reflexivity.
Defined.






(** A filter made from a configuration without caps, on stand-ins for the
    functions of the other packages. *)
Lemma X14_unvalidated_config_builds_a_filter_that_admits_all_witness :
  exists f : volumeFilter float64,
    makeFilterVolume unit (fun e b q => (e ++ b ++ q)%string) (fun ids => ids)
      (fun _ _ _ _ => Ok (fun _ => dailyVolume (f64 "80") (f64 "800")))
      "volume/sell/base/exact" "sdex" {| Base := "XLM"; Quote := "USD" |}
      (fun a => Ok a) XLM USD tt
      {| SellBaseAssetCapInBaseUnits := None; SellBaseAssetCapInQuoteUnits := None;
         mode := volumeFilterModeExact; additionalMarketIDs := [];
         optionalAccountIDs := [] |} = inr f /\
    innerFn IsSellingPair f (volume64 "80" "800") 1%positive
      (initState [sellOp "30" "10"])
    = (Ok (Some 1%positive),
       booked (initState [sellOp "30" "10"]) (f64 "30") (f64 "10")).
Proof.
  apply (X14_unvalidated_config_builds_a_filter_that_admits_all IsSellingPair unit
           (fun e b q => (e ++ b ++ q)%string) (fun ids => ids)
           (fun _ _ _ _ => Ok (fun _ => dailyVolume (f64 "80") (f64 "800")))
           "volume/sell/base/exact" "sdex" {| Base := "XLM"; Quote := "USD" |}
           (fun a => Ok a) XLM USD tt
           {| SellBaseAssetCapInBaseUnits := None; SellBaseAssetCapInQuoteUnits := None;
              mode := volumeFilterModeExact; additionalMarketIDs := [];
              optionalAccountIDs := [] |}
           "XLM" "USD" (fun _ => dailyVolume (f64 "80") (f64 "800"))
           (volume64 "80" "800") 1%positive (initState [sellOp "30" "10"])
           (f64 "10") (f64 "30")).
  - intros E. discriminate E.
  - reflexivity.
  - reflexivity.
  - reflexivity.
  - apply sellCall_first; reflexivity.
Defined.
